(** * Currents API MCP server: access layer

    A shallow embedding of [currents_server.py]: the TTL cache, the date
    validator, the article normaliser, the authenticated request and the six
    tool operations, with the properties of the specification stated and
    settled against that embedding.

    Conventions of the embedding.
    - A Python value that comes out of [response.json()] or goes into
      [json.dumps] is a [PyVal].  A [dict] is an association list in
      insertion order with distinct keys.
    - A Python [str] is a [string]; a character stands for the code point
      of the same number, so the text that can be written down is the
      range U+0000..U+00FF.
    - An exception is a class and the text [str(e)] gives.
    - The process state ([_cache], [http_client], the environment variable,
      the wall clock and the requests sent so far) is one record, threaded
      through a state-and-exception monad.  An operation runs from its
      call to its return without another operation in between.
    - [time.time()] reads an exact rational number of seconds; a request
      takes the time its exchange says. *)

From Stdlib Require Import ZArith QArith Lqa List String Ascii Bool Lia.
From Stdlib Require Import Floats.
From stdpp Require Import base option strings gmap pretty.

Local Open Scope Z_scope.
Local Open Scope string_scope.
Import ListNotations.

(** ** Python values *)

Set Warnings "-register-all".

Inductive PyVal : Type :=
| PyNone
| PyBool (b : bool)
| PyInt (z : Z)
| PyFloat (f : float)
| PyStr (s : string)
| PyList (l : list PyVal)
| PyDict (d : list (string * PyVal)).

(** [type(v).__name__] *)
Definition type_name (v : PyVal) : string :=
  match v with
  | PyNone => "NoneType"
  | PyBool _ => "bool"
  | PyInt _ => "int"
  | PyFloat _ => "float"
  | PyStr _ => "str"
  | PyList _ => "list"
  | PyDict _ => "dict"
  end.

(** [bool(v)]: what [if v:] tests. *)
Definition truthy (v : PyVal) : bool :=
  match v with
  | PyNone => false
  | PyBool b => b
  | PyInt z => negb (z =? 0)%Z
  | PyFloat f => negb (PrimFloat.eqb f PrimFloat.zero)
  | PyStr s => negb (String.eqb s "")
  | PyList l => match l with [] => false | _ => true end
  | PyDict d => match d with [] => false | _ => true end
  end.

(** [v == s] for a string literal [s]: only a [str] equals a [str]. *)
Definition py_eq_str (v : PyVal) (s : string) : bool :=
  match v with
  | PyStr t => String.eqb t s
  | _ => false
  end.

(** An [Optional[str]] argument, and its truth value. *)
Definition of_opt (o : option string) : PyVal :=
  match o with
  | Some s => PyStr s
  | None => PyNone
  end.

Definition truthy_opt (o : option string) : bool := truthy (of_opt o).

(** *** Dictionaries *)

Fixpoint dict_lookup (d : list (string * PyVal)) (k : string) : option PyVal :=
  match d with
  | [] => None
  | (k', v) :: d' => if String.eqb k' k then Some v else dict_lookup d' k
  end.

(** [d.get(k, default)] *)
Definition dict_get (d : list (string * PyVal)) (k : string) (default : PyVal) : PyVal :=
  match dict_lookup d k with
  | Some v => v
  | None => default
  end.

(** [v[k]] when [v] is a [dict] that has [k]. *)
Definition field (v : PyVal) (k : string) : option PyVal :=
  match v with
  | PyDict d => dict_lookup d k
  | _ => None
  end.

(** *** Strings *)

(** [c.isspace()] on U+0000..U+00FF. *)
Definition py_isspace (c : ascii) : bool :=
  let n := N_of_ascii c in
  (((9 <=? n) && (n <=? 13)) || ((28 <=? n) && (n <=? 32))
   || (n =? 133) || (n =? 160))%N.

Fixpoint lstrip (s : string) : string :=
  match s with
  | EmptyString => EmptyString
  | String c s' => if py_isspace c then lstrip s' else s
  end.

Fixpoint rstrip (s : string) : string :=
  match s with
  | EmptyString => EmptyString
  | String c s' =>
      match rstrip s' with
      | EmptyString => if py_isspace c then EmptyString else String c EmptyString
      | r => String c r
      end
  end.

(** [s.strip()] *)
Definition strip (s : string) : string := rstrip (lstrip s).

Fixpoint all_space (s : string) : bool :=
  match s with
  | EmptyString => true
  | String c s' => py_isspace c && all_space s'
  end.

Definition starts_with_space (s : string) : bool :=
  match s with
  | EmptyString => false
  | String c _ => py_isspace c
  end.

Fixpoint ends_with_space (s : string) : bool :=
  match s with
  | EmptyString => false
  | String c EmptyString => py_isspace c
  | String _ s' => ends_with_space s'
  end.

(** [t] is [s] without its surrounding whitespace. *)
Definition trimmed_of (s t : string) : Prop :=
  (exists l r, s = l ++ t ++ r /\ all_space l = true /\ all_space r = true)
  /\ starts_with_space t = false
  /\ ends_with_space t = false.

(** [s[:n]] on a string, for [n >= 0]. *)
Fixpoint str_take (n : nat) (s : string) : string :=
  match n, s with
  | O, _ => EmptyString
  | _, EmptyString => EmptyString
  | S n', String c s' => String c (str_take n' s')
  end.

(** *** Slices *)

(** [l[:k]]: a negative [k] counts from the end. *)
Definition slice_to {A} (l : list A) (k : Z) : list A :=
  if (0 <=? k)%Z then firstn (Z.to_nat k) l
  else firstn (Z.to_nat (Z.of_nat (List.length l) + k)) l.

(** ** Exceptions *)

Inductive ExnClass : Type :=
| ValueError
| ParserError          (* dateutil, a ValueError *)
| JSONDecodeError      (* json, a ValueError *)
| TypeError
| AttributeError
| OverflowError
| HTTPStatusError.     (* httpx, raised by raise_for_status *)

Record Exn : Type := mkExn { exn_class : ExnClass; exn_str : string }.

(** [isinstance(e, (ValueError, TypeError))] *)
Definition is_value_or_type_error (e : Exn) : bool :=
  match exn_class e with
  | ValueError | ParserError | JSONDecodeError | TypeError => true
  | _ => false
  end.

Inductive Res (A : Type) : Type :=
| Ret (a : A)
| Raise (e : Exn).
Arguments Ret {A} a.
Arguments Raise {A} e.

Definition res_bind {A B} (r : Res A) (k : A -> Res B) : Res B :=
  match r with
  | Ret a => k a
  | Raise e => Raise e
  end.

Fixpoint res_map {A B} (f : A -> Res B) (l : list A) : Res (list B) :=
  match l with
  | [] => Ret []
  | x :: l' =>
      res_bind (f x) (fun y => res_bind (res_map f l') (fun ys => Ret (y :: ys)))
  end.

Definition no_attribute (v : PyVal) (attr : string) : Exn :=
  mkExn AttributeError
        ("'" ++ type_name v ++ "' object has no attribute '" ++ attr ++ "'").

(** [v.strip()] *)
Definition py_strip (v : PyVal) : Res PyVal :=
  match v with
  | PyStr s => Ret (PyStr (strip s))
  | _ => Raise (no_attribute v "strip")
  end.

(** [len(v)] *)
Definition py_len (v : PyVal) : Res Z :=
  match v with
  | PyStr s => Ret (Z.of_nat (String.length s))
  | PyList l => Ret (Z.of_nat (List.length l))
  | PyDict d => Ret (Z.of_nat (List.length d))
  | _ => Raise (mkExn TypeError
                      ("object of type '" ++ type_name v ++ "' has no len()"))
  end.

(** [v.get(k, default)] *)
Definition py_get (v : PyVal) (k : string) (default : PyVal) : Res PyVal :=
  match v with
  | PyDict d => Ret (dict_get d k default)
  | _ => Raise (no_attribute v "get")
  end.

(** The elements [for x in v[:k]] runs over.  A [str] yields its
    characters; a [dict] cannot be indexed by a slice (the [TypeError] of
    CPython up to 3.11). *)
Definition py_slice_to (v : PyVal) (k : Z) : Res (list PyVal) :=
  match v with
  | PyList l => Ret (slice_to l k)
  | PyStr s =>
      Ret (map (fun c => PyStr (String c EmptyString))
               (slice_to (list_ascii_of_string s) k))
  | PyDict _ => Raise (mkExn TypeError "unhashable type: 'slice'")
  | _ => Raise (mkExn TypeError
                      ("'" ++ type_name v ++ "' object is not subscriptable"))
  end.

(** ** Configuration *)

Definition API_BASE_URL : string := "https://api.currentsapi.services/v1".

(** Seconds. *)
Definition CACHE_TTL : Q := 300%Q.

(** The three values read from the environment when the module loads. *)
Record Config : Type := mkConfig {
  DEFAULT_TIMEOUT : Z;
  DEFAULT_LANGUAGE : string;
  MAX_RESULTS : Z
}.

(** ** Process state *)

(** [_cache[key] = {"data": ..., "timestamp": ...}] *)
Record CacheEntry : Type := mkEntry { data : PyVal; timestamp : Q }.

(** [httpx.AsyncClient(timeout=..., headers=...)] *)
Record Client : Type := mkClient {
  client_timeout : Z;
  client_headers : list (string * string)
}.

(** One [client.get(url, params=..., headers=...)]. *)
Record Request : Type := mkRequest {
  req_url : string;
  req_params : list (string * string);
  req_headers : list (string * string)
}.

Record World : Type := mkWorld {
  CURRENTS_API_KEY : option string;     (* os.getenv("CURRENTS_API_KEY") *)
  now : Q;                              (* time.time() *)
  _cache : gmap string CacheEntry;
  http_client : option Client;
  sent : list Request                   (* outbound calls, latest first *)
}.

(** What the network does with a request. *)
Inductive HttpOutcome : Type :=
| TimeoutException                      (* httpx.TimeoutException *)
| RequestError (msg : string)           (* another httpx.RequestError, str(e) = msg *)
| Response (status_code : Z)
           (status_error : string)      (* the text raise_for_status raises with *)
           (json : Res PyVal).          (* response.json() *)

Record Exchange : Type := mkExchange { took : Q; outcome : HttpOutcome }.

(** ** State and exceptions *)

Definition M (A : Type) : Type := World -> Res A * World.

Definition ret {A} (a : A) : M A := fun w => (Ret a, w).

Definition raise {A} (e : Exn) : M A := fun w => (Raise e, w).

Definition bind {A B} (m : M A) (k : A -> M B) : M B :=
  fun w =>
    match m w with
    | (Ret a, w') => k a w'
    | (Raise e, w') => (Raise e, w')
    end.

Definition lift {A} (r : Res A) : M A := fun w => (r, w).

(** [try: body / except Exception as e: handler] *)
Definition try_except {A} (body : M A) (handler : Exn -> M A) : M A :=
  fun w =>
    match body w with
    | (Ret a, w') => (Ret a, w')
    | (Raise e, w') => handler e w'
    end.

Notation "'let*' x ':=' m 'in' k" := (bind m (fun x => k))
  (at level 10, x name, m at level 100, k at level 200).

Notation "'let+' x ':=' r 'in' k" := (res_bind r (fun x => k))
  (at level 10, x name, r at level 100, k at level 200).

(** ** The TTL cache *)

Definition Qltb (x y : Q) : bool := (Qnum x * QDen y <? Qnum y * QDen x)%Z.

Definition is_cache_valid (cache_key : string) (w : World) : bool :=
  match _cache w !! cache_key with
  | None => false
  | Some e => Qltb (now w - timestamp e) CACHE_TTL
  end.

Definition get_cached_data (cache_key : string) (w : World) : PyVal :=
  if is_cache_valid cache_key w then
    match _cache w !! cache_key with
    | Some e => data e
    | None => PyNone
    end
  else PyNone.

Definition set_cached_data (cache_key : string) (d : PyVal) (w : World) : World :=
  mkWorld (CURRENTS_API_KEY w) (now w)
          (<[cache_key := mkEntry d (now w)]> (_cache w))
          (http_client w) (sent w).

(** ** The article normaliser *)

Definition format_news_article (article : PyVal) : Res PyVal :=
  let+ id := py_get article "id" (PyStr "") in
  let+ title0 := py_get article "title" (PyStr "") in
  let+ title := py_strip title0 in
  let+ description0 := py_get article "description" (PyStr "") in
  let+ description := py_strip description0 in
  let+ url := py_get article "url" (PyStr "") in
  let+ author := py_get article "author" (PyStr "Unknown") in
  let+ image0 := py_get article "image" PyNone in
  let+ image := (if negb (py_eq_str image0 "None")
                 then py_get article "image" PyNone
                 else Ret PyNone) in
  let+ language := py_get article "language" (PyStr "") in
  let+ category := py_get article "category" (PyList []) in
  let+ published := py_get article "published" (PyStr "") in
  Ret (PyDict [("id", id);
               ("title", title);
               ("description", description);
               ("url", url);
               ("author", author);
               ("image", image);
               ("language", language);
               ("category", category);
               ("published", published);
               ("source", PyStr "Currents API")]).

(** ** The access layer

    Three things lie outside the module: the configuration read at load
    time, [dateutil]'s parser and the network.  The parser either returns
    or raises; the network answers the [n]-th request of the process with
    an [Exchange].  [isoformat_now] stands for
    [datetime.now().isoformat()]. *)

Section AccessLayer.

Variable cfg : Config.
Variable date_parser_parse : string -> Res unit.
Variable transport : nat -> Request -> Exchange.
Variable isoformat_now : Q -> string.

Definition validate_date_format (date_str : string) : Res bool :=
  match date_parser_parse date_str with
  | Ret _ => Ret true
  | Raise e => if is_value_or_type_error e then Ret false else Raise e
  end.

Definition get_api_key (w : World) : option string := CURRENTS_API_KEY w.

Definition get_http_client : M Client :=
  fun w =>
    match http_client w with
    | Some c => (Ret c, w)
    | None =>
        let c := mkClient (DEFAULT_TIMEOUT cfg) [("User-Agent", "CurrentsMCP/1.0")] in
        (Ret c, mkWorld (CURRENTS_API_KEY w) (now w) (_cache w) (Some c) (sent w))
    end.

(** [await client.get(url, params=params, headers=headers)]: the request
    goes out, time passes, the outcome comes back.  The header values are
    taken to be ASCII, as [httpx] needs them to build the request at
    all. *)
Definition client_get (url : string) (params headers : list (string * string))
  : M HttpOutcome :=
  fun w =>
    let req := mkRequest url params headers in
    let x := transport (List.length (sent w)) req in
    (Ret (outcome x),
     mkWorld (CURRENTS_API_KEY w) (now w + took x)%Q (_cache w) (http_client w)
             (req :: sent w)).

(** [params or {}] *)
Definition or_empty (params : option (list (string * string)))
  : list (string * string) :=
  match params with
  | Some p => p
  | None => []
  end.

Definition make_api_request (endpoint : string)
           (params : option (list (string * string))) : M PyVal :=
  fun w =>
    match get_api_key w with
    | Some api_key =>
        if truthy (PyStr api_key) then
          (let* client := get_http_client in
           let url := API_BASE_URL ++ "/" ++ endpoint in
           let headers := [("Authorization", "Bearer " ++ api_key)] in
           let* response := client_get url (or_empty params) headers in
           match response with
           | Response status_code status_error json =>
               if (status_code =? 401)%Z then
                 raise (mkExn ValueError
                              "Invalid API key. Please check your CURRENTS_API_KEY.")
               else if (status_code =? 429)%Z then
                 raise (mkExn ValueError
                              "Rate limit exceeded. Free tier allows 600 requests per hour.")
               else if (status_code =? 400)%Z then
                 raise (mkExn ValueError "Bad request. Please check your parameters.")
               else if (500 <=? status_code)%Z then
                 raise (mkExn ValueError "API server error. Please try again later.")
               else if (200 <=? status_code)%Z && (status_code <=? 299)%Z then
                 lift json
               else
                 raise (mkExn HTTPStatusError status_error)
           | TimeoutException =>
               raise (mkExn ValueError
                            ("Request timeout after " ++ pretty (DEFAULT_TIMEOUT cfg)
                             ++ " seconds"))
           | RequestError msg =>
               raise (mkExn ValueError ("Network error: " ++ msg))
           end) w
        else
          (Raise (mkExn ValueError
                        "CURRENTS_API_KEY environment variable is required"), w)
    | None =>
        (Raise (mkExn ValueError
                      "CURRENTS_API_KEY environment variable is required"), w)
    end.

(** *** Results

    A tool returns [json.dumps(doc)] or [json.dumps(doc, indent=2)]; the
    result is kept as the document and the indent it is printed with. *)

Record Json : Type := json_dumps { doc : PyVal; indent : option nat }.

(** The ["status"] and ["message"] of a result. *)
Definition status_of (r : Json) : option PyVal := field (doc r) "status".

Definition message_of (r : Json) : option PyVal := field (doc r) "message".

Definition error_result (message : string) : Json :=
  json_dumps (PyDict [("status", PyStr "error"); ("message", PyStr message)]) None.

(** [d and not validate_date_format(d)] *)
Definition supplied_and_invalid (d : option string) : Res bool :=
  if truthy_opt d then
    match d with
    | Some s => let+ ok := validate_date_format s in Ret (negb ok)
    | None => Ret false
    end
  else Ret false.

(** [if v: params[k] = v] *)
Definition add_param (k : string) (v : option string)
           (params : list (string * string)) : list (string * string) :=
  match v with
  | Some s => if truthy (PyStr s) then (params ++ [(k, s)])%list else params
  | None => params
  end.

Definition search_params (keywords language country category start_date end_date
                          : option string) : list (string * string) :=
  add_param "end_date" end_date
    (add_param "start_date" start_date
       (add_param "category" category
          (add_param "country" country
             (add_param "language" language
                (add_param "keywords" keywords []))))).

Definition search_news (keywords language country category start_date end_date
                        : option string) : M Json :=
  try_except
    (let* bad_start := lift (supplied_and_invalid start_date) in
     if bad_start then
       ret (error_result
              "Invalid start_date format. Use ISO 8601: YYYY-MM-DDTHH:MM:SS+00:00")
     else
       let* bad_end := lift (supplied_and_invalid end_date) in
       if bad_end then
         ret (error_result
                "Invalid end_date format. Use ISO 8601: YYYY-MM-DDTHH:MM:SS+00:00")
       else
         let params :=
           search_params keywords language country category start_date end_date in
         let* response := make_api_request "search" (Some params) in
         let* status := lift (py_get response "status" PyNone) in
         if py_eq_str status "ok" then
           let* articles := lift (py_get response "news" (PyList [])) in
           let* capped := lift (py_slice_to articles (MAX_RESULTS cfg)) in
           let* formatted_articles := lift (res_map format_news_article capped) in
           ret (json_dumps
                  (PyDict
                     [("status", PyStr "success");
                      ("total_results",
                       PyInt (Z.of_nat (List.length formatted_articles)));
                      ("articles", PyList formatted_articles);
                      ("search_params",
                       PyDict [("keywords", of_opt keywords);
                               ("language", of_opt language);
                               ("country", of_opt country);
                               ("category", of_opt category);
                               ("start_date", of_opt start_date);
                               ("end_date", of_opt end_date)])])
                  (Some 2%nat))
         else
           ret (error_result "No results found or API error occurred"))
    (fun e => ret (error_result (exn_str e))).

(** [language or DEFAULT_LANGUAGE] *)
Definition or_default (language : option string) : string :=
  match language with
  | Some s => if truthy (PyStr s) then s else DEFAULT_LANGUAGE cfg
  | None => DEFAULT_LANGUAGE cfg
  end.

Definition get_latest_news (language : option string) : M Json :=
  try_except
    (let lang := or_default language in
     let params := [("language", lang)] in
     let* response := make_api_request "latest-news" (Some params) in
     let* status := lift (py_get response "status" PyNone) in
     if py_eq_str status "ok" then
       let* articles := lift (py_get response "news" (PyList [])) in
       let* capped := lift (py_slice_to articles (MAX_RESULTS cfg)) in
       let* formatted_articles := lift (res_map format_news_article capped) in
       fun w =>
         (Ret (json_dumps
                 (PyDict
                    [("status", PyStr "success");
                     ("language", PyStr lang);
                     ("total_results",
                      PyInt (Z.of_nat (List.length formatted_articles)));
                     ("articles", PyList formatted_articles);
                     ("retrieved_at", PyStr (isoformat_now (now w)))])
                 (Some 2%nat)), w)
     else
       ret (error_result "Failed to retrieve latest news"))
    (fun e => ret (error_result (exn_str e))).

(** The three reference lookups are one body with other names in it:
    the cache key (also the key of the dataset in the response and in the
    result), the endpoint, the dataset taken when the response has none,
    the key of the count and the text of the failure. *)
Definition reference_lookup (key endpoint : string) (empty : PyVal)
           (total_key failure : string) : M Json :=
  try_except
    (fun w =>
       let cached_data := get_cached_data key w in
       if truthy cached_data then
         (Ret (json_dumps
                 (PyDict [("status", PyStr "success");
                          ("source", PyStr "cache");
                          (key, cached_data)])
                 (Some 2%nat)), w)
       else
         (let* response := make_api_request endpoint None in
          let* status := lift (py_get response "status" PyNone) in
          if py_eq_str status "ok" then
            let* dataset := lift (py_get response key empty) in
            let* _ := (fun w' => (Ret tt, set_cached_data key dataset w')) in
            let* total := lift (py_len dataset) in
            ret (json_dumps
                   (PyDict [("status", PyStr "success");
                            ("source", PyStr "api");
                            (key, dataset);
                            (total_key, PyInt total)])
                   (Some 2%nat))
          else
            ret (error_result failure)) w)
    (fun e => ret (error_result (exn_str e))).

Definition get_available_languages : M Json :=
  reference_lookup "languages" "available/languages" (PyDict [])
                   "total_languages" "Failed to retrieve supported languages".

Definition get_available_regions : M Json :=
  reference_lookup "regions" "available/regions" (PyDict [])
                   "total_regions" "Failed to retrieve supported regions".

Definition get_available_categories : M Json :=
  reference_lookup "categories" "available/category" (PyList [])
                   "total_categories" "Failed to retrieve supported categories".

(** [f"{api_key[:8]}..." if len(api_key) > 8 else "***"] *)
Definition api_key_masked (api_key : string) : string :=
  if (8 <? Z.of_nat (String.length api_key))%Z
  then str_take 8 api_key ++ "..."
  else "***".

Definition check_api_status : M Json :=
  try_except
    (fun w =>
       let api_key := get_api_key w in
       if negb (truthy_opt api_key) then
         (Ret (json_dumps
                 (PyDict
                    [("status", PyStr "error");
                     ("message",
                      PyStr "CURRENTS_API_KEY environment variable not set");
                     ("configuration",
                      PyDict [("api_key_set", PyBool false);
                              ("base_url", PyStr API_BASE_URL);
                              ("timeout", PyInt (DEFAULT_TIMEOUT cfg));
                              ("default_language", PyStr (DEFAULT_LANGUAGE cfg));
                              ("max_results", PyInt (MAX_RESULTS cfg))]);
                     ("troubleshooting",
                      PyList
                        [PyStr "Set CURRENTS_API_KEY environment variable";
                         PyStr "Get free API key from https://currentsapi.services";
                         PyStr "Ensure API key has proper permissions"])])
                 (Some 2%nat)), w)
       else
         let key := default "" api_key in
         (let* test_response :=
            make_api_request "latest-news" (Some [("language", "en")]) in
          let* status := lift (py_get test_response "status" PyNone) in
          if py_eq_str status "ok" then
            let* news := lift (py_get test_response "news" (PyList [])) in
            let* articles_count := lift (py_len news) in
            fun w' =>
              (Ret (json_dumps
                      (PyDict
                         [("status", PyStr "success");
                          ("message", PyStr "API connection successful");
                          ("configuration",
                           PyDict
                             [("api_key_set", PyBool true);
                              ("api_key_masked", PyStr (api_key_masked key));
                              ("base_url", PyStr API_BASE_URL);
                              ("timeout", PyInt (DEFAULT_TIMEOUT cfg));
                              ("default_language", PyStr (DEFAULT_LANGUAGE cfg));
                              ("max_results", PyInt (MAX_RESULTS cfg))]);
                          ("test_result",
                           PyDict
                             [("endpoint_tested", PyStr "latest-news");
                              ("response_received", PyBool true);
                              ("articles_count", PyInt articles_count)]);
                          ("cache_status",
                           PyDict
                             [("languages_cached",
                               PyBool (is_cache_valid "languages" w'));
                              ("regions_cached",
                               PyBool (is_cache_valid "regions" w'));
                              ("categories_cached",
                               PyBool (is_cache_valid "categories" w'))])])
                      (Some 2%nat)), w')
          else
            ret (json_dumps
                   (PyDict
                      [("status", PyStr "error");
                       ("message", PyStr "API test failed");
                       ("configuration",
                        PyDict
                          [("api_key_set", PyBool true);
                           ("api_key_masked", PyStr (api_key_masked key));
                           ("base_url", PyStr API_BASE_URL)])])
                   None)) w)
    (fun e =>
       ret (json_dumps
              (PyDict
                 [("status", PyStr "error");
                  ("message", PyStr ("API status check failed: " ++ exn_str e));
                  ("troubleshooting",
                   PyList [PyStr "Check internet connection";
                           PyStr "Verify API key is correct";
                           PyStr "Check if API service is operational";
                           PyStr "Ensure no firewall blocking the connection"])])
              None)).

End AccessLayer.

(** The six tools under one name. *)
Inductive Operation : Type :=
| SearchNews (keywords language country category start_date end_date : option string)
| GetLatestNews (language : option string)
| GetAvailableLanguages
| GetAvailableRegions
| GetAvailableCategories
| CheckApiStatus.

Definition run (cfg : Config) (date_parser_parse : string -> Res unit)
           (transport : nat -> Request -> Exchange) (isoformat_now : Q -> string)
           (op : Operation) : M Json :=
  match op with
  | SearchNews keywords language country category start_date end_date =>
      search_news cfg date_parser_parse transport
                  keywords language country category start_date end_date
  | GetLatestNews language => get_latest_news cfg transport isoformat_now language
  | GetAvailableLanguages => get_available_languages cfg transport
  | GetAvailableRegions => get_available_regions cfg transport
  | GetAvailableCategories => get_available_categories cfg transport
  | CheckApiStatus => check_api_status cfg transport
  end.

(** The clock moves between two calls. *)
Definition at_time (t : Q) (w : World) : World :=
  mkWorld (CURRENTS_API_KEY w) t (_cache w) (http_client w) (sent w).

(** A [title] or [description] the normaliser can trim: absent (the
    default [""] is taken) or a [str]. *)
Definition text_field (d : list (string * PyVal)) (k : string) : option string :=
  match dict_lookup d k with
  | None => Some ""
  | Some (PyStr s) => Some s
  | Some _ => None
  end.

Definition normalisable (article : PyVal) : Prop :=
  exists d t ds,
    article = PyDict d
    /\ text_field d "title" = Some t
    /\ text_field d "description" = Some ds.

(** ** Examples to run the definitions on *)

Module Sample.

Definition cfg : Config := mkConfig 15 "en" 20.

(** A parser that knows two strings and raises [ParserError] on the rest,
    with the texts [dateutil] raises it with. *)
Definition parse (s : string) : Res unit :=
  if String.eqb s "2024-01-15T10:30:00+00:00" || String.eqb s "Jan 5 2020"
  then Ret tt
  else if String.eqb s ""
  then Raise (mkExn ParserError "String does not contain a date: ")
  else Raise (mkExn ParserError ("Unknown string format: " ++ s)).

Definition isoformat_now (t : Q) : string := "2024-01-15T10:30:00".

(** A network that gives every request the same answer after one second. *)
Definition always (o : HttpOutcome) : nat -> Request -> Exchange :=
  fun _ _ => mkExchange 1%Q o.

Definition ok_body (d : list (string * PyVal)) : HttpOutcome :=
  Response 200 "" (Ret (PyDict (("status", PyStr "ok") :: d))).

Definition world (key : option string) : World :=
  mkWorld key 1000%Q ∅ None [].

Definition article (n : Z) : PyVal :=
  PyDict [("id", PyInt n);
          ("title", PyStr "  Markets rally ");
          ("image", PyStr "None")].

Definition articles (n : nat) : list PyVal :=
  map (fun i => article (Z.of_nat i)) (seq 0 n).

(** A provider with one language, and one with none. *)
Definition one_language : nat -> Request -> Exchange :=
  always (ok_body [("languages", PyDict [("English", PyStr "en")])]).

Definition no_language : nat -> Request -> Exchange :=
  always (ok_body [("languages", PyDict [])]).

(** The state a first [get_available_languages] leaves. *)
Definition after_first (net : nat -> Request -> Exchange) : World :=
  snd (get_available_languages cfg net (world (Some "key"))).

End Sample.

(** ** Vocabulary of the statements *)

(** What [make_api_request] makes of the outcome of its [client.get]. *)
Definition received (cfg : Config) (o : HttpOutcome) : Res PyVal :=
  match o with
  | Response status_code status_error json =>
      if (status_code =? 401)%Z then
        Raise (mkExn ValueError "Invalid API key. Please check your CURRENTS_API_KEY.")
      else if (status_code =? 429)%Z then
        Raise (mkExn ValueError
                     "Rate limit exceeded. Free tier allows 600 requests per hour.")
      else if (status_code =? 400)%Z then
        Raise (mkExn ValueError "Bad request. Please check your parameters.")
      else if (500 <=? status_code)%Z then
        Raise (mkExn ValueError "API server error. Please try again later.")
      else if (200 <=? status_code)%Z && (status_code <=? 299)%Z then json
      else Raise (mkExn HTTPStatusError status_error)
  | TimeoutException =>
      Raise (mkExn ValueError
                   ("Request timeout after " ++ pretty (DEFAULT_TIMEOUT cfg) ++ " seconds"))
  | RequestError msg => Raise (mkExn ValueError ("Network error: " ++ msg))
  end.

(** The request [make_api_request] sends for a credential. *)
Definition request_for (api_key endpoint : string)
           (params : option (list (string * string))) : Request :=
  mkRequest (API_BASE_URL ++ "/" ++ endpoint) (or_empty params)
            [("Authorization", "Bearer " ++ api_key)].

(** The state once the exchange [x] for [req] is over. *)
Definition after_exchange (cfg : Config) (req : Request) (x : Exchange) (w : World)
  : World :=
  mkWorld (CURRENTS_API_KEY w) (now w + took x)%Q (_cache w)
          (Some (default (mkClient (DEFAULT_TIMEOUT cfg)
                                   [("User-Agent", "CurrentsMCP/1.0")])
                         (http_client w)))
          (req :: sent w).

Definition credential_required : Exn :=
  mkExn ValueError "CURRENTS_API_KEY environment variable is required".

(** The normalised form of an article with title [t] and description
    [ds]. *)
Definition normalised (d : list (string * PyVal)) (t ds : string) : PyVal :=
  PyDict [("id", dict_get d "id" (PyStr ""));
          ("title", PyStr (strip t));
          ("description", PyStr (strip ds));
          ("url", dict_get d "url" (PyStr ""));
          ("author", dict_get d "author" (PyStr "Unknown"));
          ("image", if py_eq_str (dict_get d "image" PyNone) "None"
                    then PyNone else dict_get d "image" PyNone);
          ("language", dict_get d "language" (PyStr ""));
          ("category", dict_get d "category" (PyList []));
          ("published", dict_get d "published" (PyStr ""));
          ("source", PyStr "Currents API")].

(** The endpoint and the parameters of the request an operation makes. *)
Definition request_of (cfg : Config) (op : Operation)
  : string * option (list (string * string)) :=
  match op with
  | SearchNews keywords language country category start_date end_date =>
      ("search",
       Some (search_params keywords language country category start_date end_date))
  | GetLatestNews language => ("latest-news", Some [("language", or_default cfg language)])
  | GetAvailableLanguages => ("available/languages", None)
  | GetAvailableRegions => ("available/regions", None)
  | GetAvailableCategories => ("available/category", None)
  | CheckApiStatus => ("latest-news", Some [("language", "en")])
  end.

(** What the [except Exception as e] of an operation returns. *)
Definition failure_result (op : Operation) (e : Exn) : Json :=
  match op with
  | CheckApiStatus =>
      json_dumps
        (PyDict
           [("status", PyStr "error");
            ("message", PyStr ("API status check failed: " ++ exn_str e));
            ("troubleshooting",
             PyList [PyStr "Check internet connection";
                     PyStr "Verify API key is correct";
                     PyStr "Check if API service is operational";
                     PyStr "Ensure no firewall blocking the connection"])])
        None
  | _ => error_result (exn_str e)
  end.

(** The result carries the text [msg] in its message. *)
Definition carries_message (r : Json) (msg : string) : Prop :=
  exists prefix, message_of r = Some (PyStr (prefix ++ msg)).

(** The three upstream failures and the text each is reported with. *)
Inductive upstream_failure (cfg : Config) : HttpOutcome -> string -> Prop :=
| rate_limited err json :
    upstream_failure cfg (Response 429 err json)
      "Rate limit exceeded. Free tier allows 600 requests per hour."
| invalid_credential err json :
    upstream_failure cfg (Response 401 err json)
      "Invalid API key. Please check your CURRENTS_API_KEY."
| timed_out :
    upstream_failure cfg TimeoutException
      ("Request timeout after " ++ pretty (DEFAULT_TIMEOUT cfg) ++ " seconds").

(** Case analysis on the innermost scrutinee, until none is left. *)
Ltac split_matches :=
  repeat (match goal with
          | |- context [match ?x with _ => _ end] =>
              lazymatch x with
              | context [match _ with _ => _ end] => fail
              | _ => destruct x
              end
          end; simpl).

(** A date the validator turns down: supplied, not empty, and the parser
    raises a [ValueError] or a [TypeError] on it. *)
Definition malformed (date_parser_parse : string -> Res unit) (d : option string)
  : Prop :=
  exists s e,
    d = Some s /\ s <> ""
    /\ date_parser_parse s = Raise e /\ is_value_or_type_error e = true.

(** A date that goes through: not supplied, empty, or parsed. *)
Definition acceptable (date_parser_parse : string -> Res unit) (d : option string)
  : Prop :=
  truthy_opt d = false \/ exists s, d = Some s /\ date_parser_parse s = Ret tt.

(** The characters ISO 8601 writes a date and a time of day with. *)
Definition iso8601_char (c : ascii) : bool :=
  let n := N_of_ascii c in
  (((48 <=? n) && (n <=? 57))               (* 0-9 *)
   || (n =? 45) || (n =? 58) || (n =? 43)   (* - : + *)
   || (n =? 46) || (n =? 44)                (* . , *)
   || (n =? 84) || (n =? 87) || (n =? 90))%N. (* T W Z *)

Fixpoint iso8601_alphabet (s : string) : bool :=
  match s with
  | EmptyString => true
  | String c s' => iso8601_char c && iso8601_alphabet s'
  end.

Definition start_date_hint : string :=
  "Invalid start_date format. Use ISO 8601: YYYY-MM-DDTHH:MM:SS+00:00".

Definition end_date_hint : string :=
  "Invalid end_date format. Use ISO 8601: YYYY-MM-DDTHH:MM:SS+00:00".

(** The key a reference lookup caches under. *)
Definition reference_key (op : Operation) : option string :=
  match op with
  | GetAvailableLanguages => Some "languages"
  | GetAvailableRegions => Some "regions"
  | GetAvailableCategories => Some "categories"
  | _ => None
  end.

(** ** The configuration resource *)

(** [get_api_config], the resource [config://news-api]. *)
Definition get_api_config (cfg : Config) : Json :=
  json_dumps
    (PyDict
       [("api_info",
         PyDict [("name", PyStr "Currents API");
                 ("version", PyStr "v1");
                 ("provider", PyStr "https://currentsapi.services");
                 ("documentation", PyStr "https://currentsapi.services/docs")]);
        ("endpoints",
         PyDict [("search", PyStr (API_BASE_URL ++ "/search"));
                 ("latest_news", PyStr (API_BASE_URL ++ "/latest-news"));
                 ("languages", PyStr (API_BASE_URL ++ "/available/languages"));
                 ("regions", PyStr (API_BASE_URL ++ "/available/regions"));
                 ("categories", PyStr (API_BASE_URL ++ "/available/category"))]);
        ("authentication",
         PyDict [("type", PyStr "Bearer Token");
                 ("header", PyStr "Authorization: Bearer {API_KEY}");
                 ("environment_variable", PyStr "CURRENTS_API_KEY")]);
        ("rate_limits",
         PyDict [("free_tier", PyStr "600 requests per hour");
                 ("paid_tiers", PyStr "Higher limits available")]);
        ("setup_instructions",
         PyList [PyStr "1. Sign up at https://currentsapi.services";
                 PyStr "2. Get your API key from the dashboard";
                 PyStr "3. Set CURRENTS_API_KEY environment variable";
                 PyStr "4. Test connection with check_api_status tool"]);
        ("configuration",
         PyDict [("timeout", PyInt (DEFAULT_TIMEOUT cfg));
                 ("default_language", PyStr (DEFAULT_LANGUAGE cfg));
                 ("max_results", PyInt (MAX_RESULTS cfg));
                 ("cache_ttl", PyInt (Qnum CACHE_TTL))])])
    (Some 2%nat).

(** The values of a [dict]. *)
Definition dict_values (v : PyVal) : list PyVal :=
  match v with
  | PyDict d => map snd d
  | _ => []
  end.

(** ** More vocabulary *)

(** Whether an operation gets as far as its request: a credential is
    set, and the dates go through (search) or the cache has nothing to
    serve (reference lookups). *)
Definition sends (date_parser_parse : string -> Res unit) (op : Operation)
           (w : World) : bool :=
  truthy_opt (get_api_key w)
  && match op with
     | SearchNews _ _ _ _ start_date end_date =>
         match supplied_and_invalid date_parser_parse start_date,
               supplied_and_invalid date_parser_parse end_date with
         | Ret false, Ret false => true
         | _, _ => false
         end
     | GetLatestNews _ => true
     | GetAvailableLanguages => negb (truthy (get_cached_data "languages" w))
     | GetAvailableRegions => negb (truthy (get_cached_data "regions" w))
     | GetAvailableCategories => negb (truthy (get_cached_data "categories" w))
     | CheckApiStatus => true
     end.

(** The request an operation sends in a state. *)
Definition request_in (cfg : Config) (op : Operation) (w : World) : Request :=
  request_for (default "" (get_api_key w))
              (fst (request_of cfg op)) (snd (request_of cfg op)).

(** The failures of a request the three of [upstream_failure] leave, and
    the text each is reported with. *)
Inductive other_failure : HttpOutcome -> string -> Prop :=
| bad_request err json :
    other_failure (Response 400 err json)
                  "Bad request. Please check your parameters."
| server_error status_code err json :
    500 <= status_code ->
    other_failure (Response status_code err json)
                  "API server error. Please try again later."
| other_status status_code err json :
    status_code < 200 \/ 300 <= status_code < 500 ->
    status_code <> 400 -> status_code <> 401 -> status_code <> 429 ->
    other_failure (Response status_code err json) err
| undecodable status_code err e :
    200 <= status_code <= 299 ->
    other_failure (Response status_code err (Raise e)) (exn_str e)
| network_error msg :
    other_failure (RequestError msg) ("Network error: " ++ msg).

(** The keys of a normalised article, in their order. *)
Definition article_keys : list string :=
  ["id"; "title"; "description"; "url"; "author"; "image"; "language";
   "category"; "published"; "source"].

(** The keys of a [dict], in their order. *)
Definition dict_keys (v : PyVal) : list string :=
  match v with
  | PyDict d => map fst d
  | _ => []
  end.

(** The text an operation reports when the body's status is not
    ["ok"]. *)
Definition not_ok_message (op : Operation) : string :=
  match op with
  | SearchNews _ _ _ _ _ _ => "No results found or API error occurred"
  | GetLatestNews _ => "Failed to retrieve latest news"
  | GetAvailableLanguages => "Failed to retrieve supported languages"
  | GetAvailableRegions => "Failed to retrieve supported regions"
  | GetAvailableCategories => "Failed to retrieve supported categories"
  | CheckApiStatus => "API test failed"
  end.


(** An argument that is forwarded: supplied and not empty. *)
Definition forwarded (o : option string) (v : string) : Prop :=
  o = Some v /\ v <> "".

(** A session: tools are called one after the other, and time passes
    between the calls. *)
Inductive Event : Type :=
| Call (op : Operation)
| Wait (dt : Q).

Fixpoint play (cfg : Config) (date_parser_parse : string -> Res unit)
         (transport : nat -> Request -> Exchange) (isoformat_now : Q -> string)
         (events : list Event) (w : World) : World :=
  match events with
  | [] => w
  | Call op :: events' =>
      play cfg date_parser_parse transport isoformat_now events'
           (snd (run cfg date_parser_parse transport isoformat_now op w))
  | Wait dt :: events' =>
      play cfg date_parser_parse transport isoformat_now events'
           (at_time (now w + dt)%Q w)
  end.

(** The number of calls in a session. *)
Fixpoint calls (events : list Event) : nat :=
  match events with
  | [] => O
  | Call _ :: events' => S (calls events')
  | Wait _ :: events' => calls events'
  end.

(** Time does not run backwards in a session. *)
Fixpoint forward (events : list Event) : Prop :=
  match events with
  | [] => True
  | Call _ :: events' => forward events'
  | Wait dt :: events' => (0 <= dt)%Q /\ forward events'
  end.

(** No entry of the cache is stamped later than the clock reads. *)
Definition stamped_in_the_past (w : World) : Prop :=
  forall k e, _cache w !! k = Some e -> (timestamp e <= now w)%Q.

(** ** Strings: what [strip] leaves *)

Lemma append_nil_l (s : string) : "" ++ s = s.
Proof. reflexivity. Qed.

Lemma append_cons (c : ascii) (a b : string) : String c a ++ b = String c (a ++ b).
Proof. reflexivity. Qed.

Lemma lstrip_split (s : string) :
  exists l, s = l ++ lstrip s /\ all_space l = true.
Proof.
  induction s as [|c s IH]; simpl.
  - exists EmptyString. split; reflexivity.
  - destruct (py_isspace c) eqn:Hc.
    + destruct IH as (l & Hs & Hl). exists (String c l).
      rewrite append_cons. simpl. rewrite Hc, Hl.
      split; [congruence | reflexivity].
    + exists EmptyString. split; reflexivity.
Qed.

Lemma lstrip_no_lead (s : string) : starts_with_space (lstrip s) = false.
Proof.
  induction s as [|c s IH]; simpl; [reflexivity|].
  destruct (py_isspace c) eqn:Hc; [exact IH | simpl; exact Hc].
Qed.

Lemma rstrip_split (s : string) :
  exists r, s = rstrip s ++ r /\ all_space r = true.
Proof.
  induction s as [|c s IH]; simpl.
  - exists EmptyString. split; reflexivity.
  - destruct IH as (r & Hs & Hr).
    destruct (rstrip s) as [|c2 r2] eqn:E.
    + rewrite append_nil_l in Hs. subst s. destruct (py_isspace c) eqn:Hc.
      * exists (String c r). simpl. rewrite Hc, Hr. split; reflexivity.
      * exists r. split; [reflexivity | exact Hr].
    + exists r. rewrite append_cons. split; [congruence | exact Hr].
Qed.

Lemma rstrip_no_trail (s : string) : ends_with_space (rstrip s) = false.
Proof.
  induction s as [|c s IH]; simpl; [reflexivity|].
  destruct (rstrip s) as [|c2 r2] eqn:E.
  - destruct (py_isspace c) eqn:Hc; simpl; [reflexivity | exact Hc].
  - exact IH.
Qed.

Lemma rstrip_keeps_head (s : string) :
  starts_with_space s = false -> starts_with_space (rstrip s) = false.
Proof.
  destruct s as [|c s]; simpl; [reflexivity|].
  intros Hc. rewrite Hc. destruct (rstrip s); simpl; exact Hc.
Qed.

Lemma strip_trimmed (s : string) : trimmed_of s (strip s).
Proof.
  unfold trimmed_of, strip.
  destruct (lstrip_split s) as (l & Hl & Hls).
  destruct (rstrip_split (lstrip s)) as (r & Hr & Hrs).
  split; [|split].
  - exists l, r. split; [|split; assumption].
    rewrite <- Hr. exact Hl.
  - apply rstrip_keeps_head, lstrip_no_lead.
  - apply rstrip_no_trail.
Qed.

(** ** The clock comparison *)

Lemma Qltb_lt (x y : Q) : Qltb x y = true <-> (x < y)%Q.
Proof. unfold Qltb, Qlt. apply Z.ltb_lt. Qed.

(** ** The authenticated request, case by case *)

Section RequestFacts.

Variable cfg : Config.
Variable transport : nat -> Request -> Exchange.

Lemma make_api_request_no_key endpoint params (w : World) :
  truthy_opt (get_api_key w) = false ->
  make_api_request cfg transport endpoint params w = (Raise credential_required, w).
Proof.
  unfold make_api_request, truthy_opt, get_api_key. intros H.
  destruct (CURRENTS_API_KEY w) as [k|]; [|reflexivity].
  simpl in H. simpl. rewrite H. reflexivity.
Qed.

Lemma make_api_request_sends endpoint params (w : World) api_key :
  get_api_key w = Some api_key ->
  truthy (PyStr api_key) = true ->
  make_api_request cfg transport endpoint params w
  = (let req := request_for api_key endpoint params in
     let x := transport (List.length (sent w)) req in
     (received cfg (outcome x), after_exchange cfg req x w)).
Proof.
  unfold make_api_request, get_api_key. intros Hk Ht. rewrite Hk, Ht.
  unfold bind, get_http_client, client_get, after_exchange, request_for.
  unfold raise, lift.
  destruct (http_client w) as [c|] eqn:Hc; simpl; rewrite ?Hc;
    destruct (outcome _) as [|msg|code err json]; simpl; try reflexivity;
    repeat (match goal with
            | |- context [if ?b then _ else _] => destruct b
            end; try reflexivity).
Qed.

(** Whatever it does, the request leaves the cache alone and sends at
    most one call. *)
Lemma make_api_request_cache endpoint params (w : World) :
  _cache (snd (make_api_request cfg transport endpoint params w)) = _cache w.
Proof.
  destruct (truthy_opt (get_api_key w)) eqn:Ht.
  - unfold truthy_opt in Ht. destruct (get_api_key w) as [k|] eqn:Hk; [|discriminate].
    rewrite (make_api_request_sends _ _ _ k Hk Ht). reflexivity.
  - rewrite make_api_request_no_key by assumption. reflexivity.
Qed.

End RequestFacts.

(** ** The cache *)

Lemma lookup_after_set (k : string) (d : PyVal) (t : Q) (w : World) :
  _cache (at_time t (set_cached_data k d w)) !! k = Some (mkEntry d (now w)).
Proof. simpl. apply lookup_insert_eq. Qed.

Lemma is_cache_valid_spec (k : string) (w : World) :
  is_cache_valid k w = true <->
  exists e, _cache w !! k = Some e /\ (now w - timestamp e < CACHE_TTL)%Q.
Proof.
  unfold is_cache_valid. destruct (_cache w !! k) as [e|].
  - rewrite Qltb_lt. split.
    + intros H. exists e. split; [reflexivity | exact H].
    + intros (e' & He & H). injection He as <-. exact H.
  - split; [discriminate | intros (e & He & _); discriminate].
Qed.

Lemma is_cache_valid_after_set (k : string) (d : PyVal) (t : Q) (w : World) :
  is_cache_valid k (at_time t (set_cached_data k d w)) = true
  <-> (t - now w < CACHE_TTL)%Q.
Proof.
  unfold is_cache_valid. rewrite lookup_after_set. simpl. apply Qltb_lt.
Qed.

(** C4. A key is valid exactly when it has an entry stored less than
    [CACHE_TTL] = 300 seconds ago: after [set_cached_data] it is valid at
    every instant less than 300 later and no longer valid at exactly 300;
    [get_cached_data] gives the stored data of a valid key and [None] for
    any other, so an expired entry and a missing one read the same. *)
Theorem cache_validity (k : string) (w : World) :
  CACHE_TTL = 300%Q
  /\ (is_cache_valid k w = true <->
      exists e, _cache w !! k = Some e /\ (now w - timestamp e < CACHE_TTL)%Q)
  /\ (forall d t,
         is_cache_valid k (at_time t (set_cached_data k d w)) = true
         <-> (t - now w < CACHE_TTL)%Q)
  /\ (forall d,
         is_cache_valid k (at_time (now w + CACHE_TTL) (set_cached_data k d w))
         = false)
  /\ (forall e,
         _cache w !! k = Some e ->
         get_cached_data k w = if is_cache_valid k w then data e else PyNone)
  /\ (_cache w !! k = None -> get_cached_data k w = PyNone)
  /\ (is_cache_valid k w = false -> get_cached_data k w = PyNone).
Proof.
  split; [reflexivity|].
  split; [apply is_cache_valid_spec|].
  split; [intros d t; apply is_cache_valid_after_set|].
  split.
  { intros d. destruct (is_cache_valid _ _) eqn:H; [|reflexivity].
    apply is_cache_valid_after_set in H. unfold CACHE_TTL in H. lra. }
  split.
  { intros e He. unfold get_cached_data. rewrite He. reflexivity. }
  split.
  { intros Hn. unfold get_cached_data, is_cache_valid. rewrite Hn. reflexivity. }
  intros Hv. unfold get_cached_data. rewrite Hv. reflexivity.
Qed.

Lemma cache_validity_witness :
  is_cache_valid "languages"
    (at_time 1299 (set_cached_data "languages" (PyList [PyStr "en"])
                                   (Sample.world None))) = true
  /\ is_cache_valid "languages"
       (at_time 1300 (set_cached_data "languages" (PyList [PyStr "en"])
                                      (Sample.world None))) = false
  /\ get_cached_data "languages" (Sample.world None) = PyNone.
Proof.
  pose proof (cache_validity "languages" (Sample.world None))
    as (_ & _ & Hlt & Hat & _ & Hmiss & _).
  split; [|split].
  - apply Hlt. vm_compute. reflexivity.
  - exact (Hat (PyList [PyStr "en"])).
  - apply Hmiss. reflexivity.
Defined.

(** ** The normaliser *)

Lemma format_news_article_eq (d : list (string * PyVal)) (t ds : string) :
  text_field d "title" = Some t ->
  text_field d "description" = Some ds ->
  format_news_article (PyDict d) = Ret (normalised d t ds).
Proof.
  unfold text_field, format_news_article, normalised, py_get, dict_get.
  intros Ht Hd.
  destruct (dict_lookup d "title") as [[]|]; try discriminate;
    destruct (dict_lookup d "description") as [[]|]; try discriminate;
    injection Ht as <-; injection Hd as <-; simpl;
    destruct (py_eq_str _ "None"); reflexivity.
Qed.

Lemma format_news_article_inv (article out : PyVal) :
  format_news_article article = Ret out ->
  exists d t ds,
    article = PyDict d
    /\ text_field d "title" = Some t
    /\ text_field d "description" = Some ds
    /\ out = normalised d t ds.
Proof.
  intros H. destruct article as [| | | | |l|d]; try discriminate H.
  destruct (text_field d "title") as [t|] eqn:Ht.
  - destruct (text_field d "description") as [ds|] eqn:Hd.
    + exists d, t, ds. rewrite (format_news_article_eq d t ds Ht Hd) in H.
      injection H as <-. auto.
    + exfalso. revert H Ht Hd.
      unfold text_field, format_news_article, py_get, dict_get.
      destruct (dict_lookup d "title") as [[]|]; try discriminate;
        destruct (dict_lookup d "description") as [[]|]; discriminate.
  - exfalso. revert H Ht.
    unfold text_field, format_news_article, py_get, dict_get.
    destruct (dict_lookup d "title") as [[]|]; discriminate.
Qed.

(** C1, as the code has it.  For every mapping whose title and
    description, where present, are strings, [format_news_article]
    returns a result; every other field may be absent or hold any
    value. *)
Theorem format_news_article_returns (d : list (string * PyVal)) (t ds : string) :
  text_field d "title" = Some t ->
  text_field d "description" = Some ds ->
  exists out, format_news_article (PyDict d) = Ret (PyDict out).
Proof.
  intros Ht Hd. rewrite (format_news_article_eq d t ds Ht Hd).
  unfold normalised. eexists. reflexivity.
Qed.

Lemma format_news_article_returns_witness :
  exists out,
    format_news_article
      (PyDict [("id", PyInt 7); ("description", PyStr " text "); ("author", PyNone)])
    = Ret (PyDict out).
Proof.
  apply (format_news_article_returns _ "" " text "); reflexivity.
Defined.

(** C1, as the specification states it, fails: a title that is present
    and [None] has no [strip]. *)
Lemma format_news_article_none_title :
  format_news_article (PyDict [("id", PyStr "a1"); ("title", PyNone)])
  = Raise (mkExn AttributeError "'NoneType' object has no attribute 'strip'")
  /\ ~ (forall d, exists out, format_news_article (PyDict d) = Ret out).
Proof.
  split; [reflexivity|].
  intros H. destruct (H [("id", PyStr "a1"); ("title", PyNone)]) as (out & Hout).
  discriminate Hout.
Qed.

(** C8. Whenever the normaliser returns, its output has author
    ["Unknown"] if the article has none, image [None] if the article's
    image is the string ["None"], category [[]] if the article has none,
    the title and the description without their surrounding whitespace,
    and source ["Currents API"]. *)
Theorem format_news_article_fields (article out : PyVal) :
  format_news_article article = Ret out ->
  exists d t ds,
    article = PyDict d
    /\ text_field d "title" = Some t
    /\ text_field d "description" = Some ds
    /\ (dict_lookup d "author" = None -> field out "author" = Some (PyStr "Unknown"))
    /\ (dict_lookup d "image" = Some (PyStr "None") -> field out "image" = Some PyNone)
    /\ (dict_lookup d "category" = None -> field out "category" = Some (PyList []))
    /\ (exists t', field out "title" = Some (PyStr t') /\ trimmed_of t t')
    /\ (exists ds', field out "description" = Some (PyStr ds') /\ trimmed_of ds ds')
    /\ field out "source" = Some (PyStr "Currents API").
Proof.
  intros H. apply format_news_article_inv in H as (d & t & ds & -> & Ht & Hd & ->).
  exists d, t, ds. repeat split; try assumption.
  - intros Ha. simpl. unfold dict_get. rewrite Ha. reflexivity.
  - intros Hi. simpl. unfold dict_get. rewrite Hi. reflexivity.
  - intros Hc. simpl. unfold dict_get. rewrite Hc. reflexivity.
  - exists (strip t). split; [reflexivity | apply strip_trimmed].
  - exists (strip ds). split; [reflexivity | apply strip_trimmed].
Qed.

Lemma format_news_article_fields_witness :
  field (normalised [("title", PyStr "  Markets rally "); ("image", PyStr "None")]
                    "  Markets rally " "")
        "author" = Some (PyStr "Unknown")
  /\ field (normalised [("title", PyStr "  Markets rally "); ("image", PyStr "None")]
                       "  Markets rally " "")
           "image" = Some PyNone.
Proof.
  destruct (format_news_article_fields
              (PyDict [("title", PyStr "  Markets rally "); ("image", PyStr "None")])
              (normalised [("title", PyStr "  Markets rally "); ("image", PyStr "None")]
                          "  Markets rally " "")
              eq_refl)
    as (d & t & ds & Hd & _ & _ & Ha & Hi & _).
  injection Hd as <-. split; [apply Ha | apply Hi]; reflexivity.
Defined.

(** ** No credential *)

(** C6. With no credential (the variable unset or empty)
    [make_api_request] raises the configuration error and
    [check_api_status] returns an error result whose configuration has
    [api_key_set] false; the state is the one they started in, so nothing
    was sent and no client was made. *)
Theorem no_credential_no_call (cfg : Config) (transport : nat -> Request -> Exchange)
        (endpoint : string) (params : option (list (string * string))) (w : World) :
  truthy_opt (get_api_key w) = false ->
  make_api_request cfg transport endpoint params w
  = (Raise (mkExn ValueError "CURRENTS_API_KEY environment variable is required"), w)
  /\ exists r conf,
      check_api_status cfg transport w = (Ret r, w)
      /\ status_of r = Some (PyStr "error")
      /\ field (doc r) "configuration" = Some conf
      /\ field conf "api_key_set" = Some (PyBool false).
Proof.
  intros H. split; [apply make_api_request_no_key; exact H|].
  unfold check_api_status, try_except. rewrite H. simpl.
  eexists. eexists. split; [reflexivity|]. repeat split.
Qed.

Lemma no_credential_no_call_witness :
  sent (snd (check_api_status Sample.cfg (Sample.always TimeoutException)
                              (Sample.world (Some ""))))
  = [].
Proof.
  destruct (no_credential_no_call Sample.cfg (Sample.always TimeoutException)
                                  "latest-news" None (Sample.world (Some ""))
                                  eq_refl)
    as (_ & r & conf & Hr & _).
  rewrite Hr. reflexivity.
Defined.

(** ** Every operation, around its one request *)

Section OperationFacts.

Variable cfg : Config.
Variable date_parser_parse : string -> Res unit.
Variable transport : nat -> Request -> Exchange.
Variable isoformat_now : Q -> string.

Abbreviation run_op := (run cfg date_parser_parse transport isoformat_now).

Lemma truthy_opt_key (w : World) :
  truthy_opt (get_api_key w) = true ->
  exists k, get_api_key w = Some k /\ truthy (PyStr k) = true.
Proof.
  unfold truthy_opt. destruct (get_api_key w) as [k|]; [|discriminate].
  intros H. exists k. split; [reflexivity | exact H].
Qed.

(** An operation either sends nothing, or sends the one request of
    [request_of] under the configured credential; when that request
    fails, the result is the operation's failure result. *)
Lemma run_cases (op : Operation) (w : World) :
  sent (snd (run_op op w)) = sent w
  \/ exists k,
      get_api_key w = Some k /\ truthy (PyStr k) = true
      /\ let req := request_for k (fst (request_of cfg op)) (snd (request_of cfg op)) in
         sent (snd (run_op op w)) = req :: sent w
         /\ forall e,
             received cfg (outcome (transport (List.length (sent w)) req)) = Raise e ->
             fst (run_op op w) = Ret (failure_result op e).
Proof.
  destruct (truthy_opt (get_api_key w)) eqn:Hkey.
  - destruct (truthy_opt_key w Hkey) as (k & Hk & Ht).
    destruct op; simpl;
      unfold search_news, get_latest_news, get_available_languages,
        get_available_regions, get_available_categories, reference_lookup,
        check_api_status, try_except, bind, lift, ret;
      rewrite ?Hkey; simpl;
      rewrite ?(make_api_request_sends cfg transport _ _ w k Hk Ht); simpl.
    all: try (destruct (supplied_and_invalid date_parser_parse start_date)
               as [[|]|?]; simpl; [left; reflexivity | | left; reflexivity];
              destruct (supplied_and_invalid date_parser_parse end_date)
                as [[|]|?]; simpl; [left; reflexivity | | left; reflexivity];
              rewrite ?(make_api_request_sends cfg transport _ _ w k Hk Ht); simpl).
    all: try (match goal with
              | |- context [truthy (get_cached_data ?key ?w0)] =>
                  destruct (truthy (get_cached_data key w0));
                  simpl; [left; reflexivity|];
                  rewrite ?(make_api_request_sends cfg transport _ _ w k Hk Ht); simpl
              end).
    all: right; exists k; split; [exact Hk|]; split; [exact Ht|];
      match goal with
      | |- context [received cfg ?o] => destruct (received cfg o) as [response|e0] eqn:E
      end; simpl;
      (split; [split_matches; reflexivity | intros e He; try discriminate He]);
      injection He as <-; reflexivity.
  - left.
    destruct op; simpl;
      unfold search_news, get_latest_news, get_available_languages,
        get_available_regions, get_available_categories, reference_lookup,
        check_api_status, try_except, bind, lift, ret;
      rewrite ?Hkey; simpl;
      rewrite ?(make_api_request_no_key cfg transport _ _ w Hkey); simpl;
      try reflexivity.
    all: try (destruct (supplied_and_invalid date_parser_parse start_date)
               as [[|]|?]; simpl; try reflexivity;
              destruct (supplied_and_invalid date_parser_parse end_date)
                as [[|]|?]; simpl; try reflexivity;
              rewrite ?(make_api_request_no_key cfg transport _ _ w Hkey);
              reflexivity).
    all: match goal with
         | |- context [truthy (get_cached_data ?key ?w0)] =>
             destruct (truthy (get_cached_data key w0)); reflexivity
         end.
Qed.

End OperationFacts.

(** ** Upstream failures *)

Lemma cons_neq_self {A} (x : A) (l : list A) : l <> x :: l.
Proof.
  intros H. apply (f_equal (@List.length A)) in H. simpl in H. lia.
Qed.

Lemma upstream_failure_raises (cfg : Config) (o : HttpOutcome) (msg : string) :
  upstream_failure cfg o msg -> received cfg o = Raise (mkExn ValueError msg).
Proof. intros H. destruct H; reflexivity. Qed.

Lemma failure_result_error (op : Operation) (e : Exn) :
  status_of (failure_result op e) = Some (PyStr "error")
  /\ carries_message (failure_result op e) (exn_str e).
Proof.
  destruct op; (split; [reflexivity|]).
  all: try (exists ""; reflexivity).
  exists "API status check failed: ". reflexivity.
Qed.

(** C5. Whichever operation sent the request: when the provider answers
    429 the result is an error carrying the rate-limit message with its
    600 requests per hour, when it answers 401 an error carrying the
    invalid-key message, and when the call times out an error carrying
    the timeout message with the configured number of seconds. *)
Theorem upstream_failures_reported
        (cfg : Config) (date_parser_parse : string -> Res unit)
        (transport : nat -> Request -> Exchange) (isoformat_now : Q -> string)
        (op : Operation) (w : World) (req : Request) (msg : string) :
  sent (snd (run cfg date_parser_parse transport isoformat_now op w)) = req :: sent w ->
  upstream_failure cfg (outcome (transport (List.length (sent w)) req)) msg ->
  exists r,
    fst (run cfg date_parser_parse transport isoformat_now op w) = Ret r
    /\ status_of r = Some (PyStr "error")
    /\ carries_message r msg.
Proof.
  intros Hsent Hfail.
  destruct (run_cases cfg date_parser_parse transport isoformat_now op w)
    as [Hno | (k & Hk & Ht & Hs & Hr)].
  - rewrite Hno in Hsent. exfalso. exact (cons_neq_self _ _ Hsent).
  - rewrite Hs in Hsent. injection Hsent as Hreq. rewrite Hreq in Hr.
    apply upstream_failure_raises in Hfail.
    exists (failure_result op (mkExn ValueError msg)).
    split; [apply Hr; exact Hfail|].
    apply (failure_result_error op (mkExn ValueError msg)).
Qed.

Lemma upstream_failures_reported_witness :
  exists r,
    fst (run Sample.cfg Sample.parse (Sample.always TimeoutException)
             Sample.isoformat_now (GetLatestNews None) (Sample.world (Some "key")))
    = Ret r
    /\ status_of r = Some (PyStr "error")
    /\ carries_message r "Request timeout after 15 seconds".
Proof.
  apply (upstream_failures_reported
           Sample.cfg Sample.parse (Sample.always TimeoutException)
           Sample.isoformat_now (GetLatestNews None) (Sample.world (Some "key"))
           (request_for "key" "latest-news" (Some [("language", "en")]))).
  - reflexivity.
  - apply timed_out.
Defined.

(** ** Search: the dates *)

Section SearchFacts.

Variable cfg : Config.
Variable date_parser_parse : string -> Res unit.
Variable transport : nat -> Request -> Exchange.

Lemma truthy_str_nonempty (s : string) : truthy (PyStr s) = true <-> s <> "".
Proof.
  simpl. destruct (String.eqb_spec s ""); simpl; split; intros; congruence.
Qed.

Lemma malformed_invalid (d : option string) :
  malformed date_parser_parse d ->
  supplied_and_invalid date_parser_parse d = Ret true.
Proof.
  intros (s & e & -> & Hs & Hp & He).
  unfold supplied_and_invalid, truthy_opt. simpl of_opt.
  apply truthy_str_nonempty in Hs. rewrite Hs.
  unfold validate_date_format. rewrite Hp, He. reflexivity.
Qed.

Lemma acceptable_valid (d : option string) :
  acceptable date_parser_parse d ->
  supplied_and_invalid date_parser_parse d = Ret false.
Proof.
  unfold supplied_and_invalid. intros [H | (s & -> & Hp)].
  - rewrite H. reflexivity.
  - destruct (truthy_opt (Some s)); [|reflexivity].
    unfold validate_date_format. rewrite Hp. reflexivity.
Qed.

Lemma search_news_bad_start keywords language country category start_date end_date
      (w : World) :
  supplied_and_invalid date_parser_parse start_date = Ret true ->
  search_news cfg date_parser_parse transport
              keywords language country category start_date end_date w
  = (Ret (error_result start_date_hint), w).
Proof.
  intros H. unfold search_news, try_except, bind, lift. rewrite H. reflexivity.
Qed.

Lemma search_news_bad_end keywords language country category start_date end_date
      (w : World) :
  supplied_and_invalid date_parser_parse start_date = Ret false ->
  supplied_and_invalid date_parser_parse end_date = Ret true ->
  search_news cfg date_parser_parse transport
              keywords language country category start_date end_date w
  = (Ret (error_result end_date_hint), w).
Proof.
  intros H1 H2. unfold search_news, try_except, bind, lift. rewrite H1, H2.
  reflexivity.
Qed.

(** With both dates through and a credential, the search is its request
    and what it makes of the answer. *)
Lemma search_news_requests keywords language country category start_date end_date
      (w : World) (k : string) :
  supplied_and_invalid date_parser_parse start_date = Ret false ->
  supplied_and_invalid date_parser_parse end_date = Ret false ->
  get_api_key w = Some k ->
  truthy (PyStr k) = true ->
  let req :=
    request_for k "search"
      (Some (search_params keywords language country category start_date end_date)) in
  sent (snd (search_news cfg date_parser_parse transport
                         keywords language country category start_date end_date w))
  = req :: sent w.
Proof.
  intros H1 H2 Hk Ht.
  destruct (run_cases cfg date_parser_parse transport (fun _ => "")
              (SearchNews keywords language country category start_date end_date) w)
    as [Hno | (k' & Hk' & _ & Hs & _)].
  - exfalso. revert Hno. simpl.
    unfold search_news, try_except, bind, lift. rewrite H1, H2.
    rewrite (make_api_request_sends cfg transport _ _ w k Hk Ht). simpl.
    match goal with
    | |- context [received cfg ?o] => destruct (received cfg o)
    end; simpl; [split_matches|]; apply not_eq_sym, cons_neq_self.
  - rewrite Hk in Hk'. injection Hk' as <-. exact Hs.
Qed.

End SearchFacts.

(** C3, as the code has it.  When the start date is supplied, not empty
    and turned down by the validator, or the start date goes through and
    the end date is supplied, not empty and turned down, [search_news]
    returns the error result with the format hint of that date and leaves
    the state as it was: nothing is sent. *)
Theorem search_news_rejects_malformed_dates
        (cfg : Config) (date_parser_parse : string -> Res unit)
        (transport : nat -> Request -> Exchange)
        (keywords language country category start_date end_date : option string)
        (w : World) :
  malformed date_parser_parse start_date
  \/ (acceptable date_parser_parse start_date /\ malformed date_parser_parse end_date) ->
  exists hint,
    search_news cfg date_parser_parse transport
                keywords language country category start_date end_date w
    = (Ret (error_result hint), w)
    /\ status_of (error_result hint) = Some (PyStr "error")
    /\ (malformed date_parser_parse start_date -> hint = start_date_hint)
    /\ (acceptable date_parser_parse start_date -> hint = end_date_hint).
Proof.
  intros [Hs | (Hs & He)].
  - exists start_date_hint. split; [|split; [reflexivity|split]].
    + apply search_news_bad_start, malformed_invalid, Hs.
    + reflexivity.
    + intros Ha. apply acceptable_valid in Ha. apply malformed_invalid in Hs.
      congruence.
  - exists end_date_hint. split; [|split; [reflexivity|split]].
    + apply search_news_bad_end;
        [apply acceptable_valid, Hs | apply malformed_invalid, He].
    + intros Hm. apply acceptable_valid in Hs. apply malformed_invalid in Hm.
      congruence.
    + reflexivity.
Qed.

Lemma search_news_rejects_malformed_dates_witness :
  search_news Sample.cfg Sample.parse (Sample.always TimeoutException)
              (Some "rates") None None None (Some "not-a-date") None
              (Sample.world (Some "key"))
  = (Ret (error_result start_date_hint), Sample.world (Some "key")).
Proof.
  destruct (search_news_rejects_malformed_dates
              Sample.cfg Sample.parse (Sample.always TimeoutException)
              (Some "rates") None None None (Some "not-a-date") None
              (Sample.world (Some "key")))
    as (hint & Hr & _ & Hh & _).
  - left. exists "not-a-date", (mkExn ParserError "Unknown string format: not-a-date").
    repeat split. discriminate.
  - rewrite Hr, Hh; [reflexivity|].
    exists "not-a-date", (mkExn ParserError "Unknown string format: not-a-date").
    repeat split. discriminate.
Defined.

(** C3, as the specification states it, fails: an empty start date is
    supplied and does not parse, yet it is not validated and the search
    goes out. *)
Lemma search_news_empty_start_date :
  Sample.parse "" = Raise (mkExn ParserError "String does not contain a date: ")
  /\ sent (snd (search_news Sample.cfg Sample.parse
                            (Sample.always (Sample.ok_body []))
                            None None None None (Some "") None
                            (Sample.world (Some "key"))))
     = [request_for "key" "search" (Some [])]
  /\ exists r,
      fst (search_news Sample.cfg Sample.parse
                       (Sample.always (Sample.ok_body []))
                       None None None None (Some "") None
                       (Sample.world (Some "key")))
      = Ret r
      /\ status_of r = Some (PyStr "success").
Proof.
  split; [reflexivity|]. split; [reflexivity|].
  eexists. split; reflexivity.
Qed.

(** C10. ["Jan 5 2020"] is not written in the ISO 8601 alphabet; a
    parser that reads it, as [dateutil]'s does, makes
    [validate_date_format] answer [True], so the start-date check of
    [search_news] does not fire and the search is sent with that start
    date among its parameters. *)
Theorem lenient_date_accepted
        (cfg : Config) (date_parser_parse : string -> Res unit)
        (transport : nat -> Request -> Exchange)
        (keywords language country category : option string)
        (w : World) (k : string) :
  date_parser_parse "Jan 5 2020" = Ret tt ->
  get_api_key w = Some k ->
  truthy (PyStr k) = true ->
  iso8601_alphabet "Jan 5 2020" = false
  /\ validate_date_format date_parser_parse "Jan 5 2020" = Ret true
  /\ supplied_and_invalid date_parser_parse (Some "Jan 5 2020") = Ret false
  /\ exists req,
      sent (snd (search_news cfg date_parser_parse transport
                             keywords language country category
                             (Some "Jan 5 2020") None w))
      = req :: sent w
      /\ req_url req = "https://api.currentsapi.services/v1/search"
      /\ In ("start_date", "Jan 5 2020") (req_params req).
Proof.
  intros Hp Hk Ht.
  assert (Hv : validate_date_format date_parser_parse "Jan 5 2020" = Ret true).
  { unfold validate_date_format. rewrite Hp. reflexivity. }
  assert (Hs : supplied_and_invalid date_parser_parse (Some "Jan 5 2020") = Ret false).
  { unfold supplied_and_invalid. simpl. rewrite Hv. reflexivity. }
  split; [reflexivity|]. split; [exact Hv|]. split; [exact Hs|].
  eexists. split; [|split].
  - apply (search_news_requests cfg date_parser_parse transport
             keywords language country category (Some "Jan 5 2020") None w k);
      [exact Hs | reflexivity | exact Hk | exact Ht].
  - reflexivity.
  - unfold request_for, search_params. simpl.
    apply in_or_app. right. left. reflexivity.
Qed.

Lemma lenient_date_accepted_witness :
  validate_date_format Sample.parse "Jan 5 2020" = Ret true
  /\ sent (snd (search_news Sample.cfg Sample.parse
                            (Sample.always (Sample.ok_body []))
                            None None None None (Some "Jan 5 2020") None
                            (Sample.world (Some "key"))))
     = [request_for "key" "search" (Some [("start_date", "Jan 5 2020")])].
Proof.
  destruct (lenient_date_accepted
              Sample.cfg Sample.parse (Sample.always (Sample.ok_body []))
              None None None None (Sample.world (Some "key")) "key"
              eq_refl eq_refl eq_refl)
    as (_ & Hv & _ & req & Hreq & _).
  split; [exact Hv | reflexivity].
Defined.

(** ** Search: the results *)

Lemma received_success (cfg : Config) (status_code : Z) (err : string)
      (json : Res PyVal) :
  200 <= status_code <= 299 ->
  received cfg (Response status_code err json) = json.
Proof.
  intros H. unfold received.
  destruct (Z.eqb_spec status_code 401); [lia|].
  destruct (Z.eqb_spec status_code 429); [lia|].
  destruct (Z.eqb_spec status_code 400); [lia|].
  destruct (Z.leb_spec 500 status_code); [lia|].
  destruct (Z.leb_spec 200 status_code); [|lia].
  destruct (Z.leb_spec status_code 299); [|lia].
  reflexivity.
Qed.

Lemma slice_to_cap {A} (l : list A) (k : Z) :
  0 <= k ->
  slice_to l k = firstn (Z.to_nat k) l
  /\ Z.of_nat (List.length (slice_to l k)) = Z.min (Z.of_nat (List.length l)) k.
Proof.
  intros Hk. unfold slice_to. destruct (Z.leb_spec 0 k); [|lia].
  split; [reflexivity|]. rewrite length_firstn. lia.
Qed.

Lemma res_map_normalisable (l : list PyVal) :
  Forall normalisable l ->
  exists out,
    res_map format_news_article l = Ret out
    /\ List.length out = List.length l
    /\ Forall2 (fun a f => format_news_article a = Ret f) l out.
Proof.
  induction 1 as [|a l Ha _ IH]; simpl.
  - exists []. repeat split. constructor.
  - destruct Ha as (d & t & ds & -> & Ht & Hd).
    destruct IH as (out & Hout & Hlen & Hall).
    exists (normalised d t ds :: out).
    rewrite (format_news_article_eq d t ds Ht Hd). simpl. rewrite Hout. simpl.
    repeat split; [congruence|].
    constructor; [apply format_news_article_eq; assumption | exact Hall].
Qed.

Lemma res_map_inv {A B} (f : A -> Res B) (l : list A) (out : list B) :
  res_map f l = Ret out ->
  List.length out = List.length l /\ Forall2 (fun a b => f a = Ret b) l out.
Proof.
  revert out. induction l as [|a l IH]; simpl; intros out H.
  - injection H as <-. split; [reflexivity | constructor].
  - destruct (f a) as [b|e] eqn:Hfa; [|discriminate]. simpl in H.
    destruct (res_map f l) as [bs|e]; [|discriminate]. simpl in H.
    injection H as <-. destruct (IH bs eq_refl) as (Hlen & Hall).
    split; [simpl; congruence | constructor; assumption].
Qed.

(** C7, as the code has it.  With both dates through, a credential, a
    2xx answer whose body
    has status ["ok"] and [n] articles, and a cap that is not negative,
    [search_news] returns a result that is tagged success or error; a
    success result holds the first [min(n, MAX_RESULTS)] articles
    normalised, their number as [total_results], and the six arguments
    as they came in [search_params]; and the result is a success
    whenever those first articles can be normalised. *)
Theorem search_news_caps_and_echoes
        (cfg : Config) (date_parser_parse : string -> Res unit)
        (transport : nat -> Request -> Exchange)
        (keywords language country category start_date end_date : option string)
        (w : World) (k : string) (status_code : Z) (err : string)
        (body : list (string * PyVal)) (articles : list PyVal) :
  acceptable date_parser_parse start_date ->
  acceptable date_parser_parse end_date ->
  get_api_key w = Some k ->
  truthy (PyStr k) = true ->
  outcome (transport (List.length (sent w))
                     (request_for k "search"
                        (Some (search_params keywords language country category
                                             start_date end_date))))
  = Response status_code err (Ret (PyDict body)) ->
  200 <= status_code <= 299 ->
  dict_lookup body "status" = Some (PyStr "ok") ->
  dict_lookup body "news" = Some (PyList articles) ->
  0 <= MAX_RESULTS cfg ->
  exists r,
    fst (search_news cfg date_parser_parse transport
                     keywords language country category start_date end_date w)
    = Ret r
    /\ (status_of r = Some (PyStr "success") \/ status_of r = Some (PyStr "error"))
    /\ (status_of r = Some (PyStr "success") ->
        exists formatted,
          r = json_dumps
                (PyDict
                   [("status", PyStr "success");
                    ("total_results",
                     PyInt (Z.min (Z.of_nat (List.length articles))
                                  (MAX_RESULTS cfg)));
                    ("articles", PyList formatted);
                    ("search_params",
                     PyDict [("keywords", of_opt keywords);
                             ("language", of_opt language);
                             ("country", of_opt country);
                             ("category", of_opt category);
                             ("start_date", of_opt start_date);
                             ("end_date", of_opt end_date)])])
                (Some 2%nat)
          /\ Z.of_nat (List.length formatted)
             = Z.min (Z.of_nat (List.length articles)) (MAX_RESULTS cfg)
          /\ Forall2 (fun a f => format_news_article a = Ret f)
                     (firstn (Z.to_nat (MAX_RESULTS cfg)) articles) formatted)
    /\ (Forall normalisable (firstn (Z.to_nat (MAX_RESULTS cfg)) articles) ->
        status_of r = Some (PyStr "success")).
Proof.
  intros Hs He Hk Ht Hout Hcode Hstatus Hnews Hmax.
  destruct (slice_to_cap articles (MAX_RESULTS cfg) Hmax) as (Hslice & Hlen).
  unfold search_news, try_except, bind, lift, ret.
  rewrite (acceptable_valid _ _ Hs), (acceptable_valid _ _ He).
  rewrite (make_api_request_sends cfg transport _ _ w k Hk Ht). simpl.
  rewrite Hout, (received_success _ _ _ _ Hcode). simpl.
  unfold dict_get. rewrite Hstatus. simpl. rewrite Hnews. simpl.
  rewrite Hslice.
  destruct (res_map format_news_article
                    (firstn (Z.to_nat (MAX_RESULTS cfg)) articles))
    as [formatted|e] eqn:Hmap; simpl.
  - destruct (res_map_inv _ _ _ Hmap) as (Hlen' & Hall).
    assert (Hcount : Z.of_nat (List.length formatted)
                     = Z.min (Z.of_nat (List.length articles)) (MAX_RESULTS cfg)).
    { rewrite Hlen', <- Hslice. exact Hlen. }
    eexists. split; [reflexivity|].
    split; [left; reflexivity|]. split; [|reflexivity].
    intros _. exists formatted. rewrite Hcount. repeat split; assumption.
  - eexists. split; [reflexivity|].
    split; [right; reflexivity|]. split; [discriminate|].
    intros Hnorm. apply res_map_normalisable in Hnorm as (out & Hout' & _).
    congruence.
Qed.

Lemma search_news_caps_and_echoes_witness :
  exists formatted,
    fst (search_news Sample.cfg Sample.parse
                     (Sample.always
                        (Sample.ok_body [("news", PyList (Sample.articles 25))]))
                     (Some "rates") (Some "en") None None
                     (Some "2024-01-15T10:30:00+00:00") None
                     (Sample.world (Some "key")))
    = Ret (json_dumps
             (PyDict
                [("status", PyStr "success");
                 ("total_results", PyInt 20);
                 ("articles", PyList formatted);
                 ("search_params",
                  PyDict [("keywords", PyStr "rates");
                          ("language", PyStr "en");
                          ("country", PyNone);
                          ("category", PyNone);
                          ("start_date", PyStr "2024-01-15T10:30:00+00:00");
                          ("end_date", PyNone)])])
             (Some 2%nat))
    /\ List.length formatted = 20%nat.
Proof.
  destruct (search_news_caps_and_echoes
              Sample.cfg Sample.parse
              (Sample.always (Sample.ok_body [("news", PyList (Sample.articles 25))]))
              (Some "rates") (Some "en") None None
              (Some "2024-01-15T10:30:00+00:00") None
              (Sample.world (Some "key")) "key" 200 ""
              [("status", PyStr "ok"); ("news", PyList (Sample.articles 25))]
              (Sample.articles 25))
    as (r & Hr & _ & Hsuccess & Hnorm).
  - right. exists "2024-01-15T10:30:00+00:00". split; reflexivity.
  - left. reflexivity.
  - reflexivity.
  - reflexivity.
  - reflexivity.
  - simpl. lia.
  - reflexivity.
  - reflexivity.
  - simpl. lia.
  - destruct Hsuccess as (formatted & -> & Hn & _).
    + apply Hnorm. simpl.
      repeat (constructor;
              [eexists _, _, _; split; [reflexivity | split; reflexivity]|]).
      constructor.
    + exists formatted. split; [exact Hr|].
      simpl in Hn. lia.
Defined.

(** C7, as the specification states it, fails.  [MAX_RESULTS] is read
    with [int] and may be negative; with [MAX_RESULTS = -1] and three
    articles the search returns the first two, where [min(3, -1)] is
    [-1]. *)
Lemma search_news_cap_minus_one :
  exists formatted,
    fst (search_news (mkConfig 15 "en" (-1)) Sample.parse
                     (Sample.always
                        (Sample.ok_body [("news", PyList (Sample.articles 3))]))
                     None None None None None None
                     (Sample.world (Some "key")))
    = Ret (json_dumps
             (PyDict
                [("status", PyStr "success");
                 ("total_results", PyInt 2);
                 ("articles", PyList formatted);
                 ("search_params",
                  PyDict [("keywords", PyNone);
                          ("language", PyNone);
                          ("country", PyNone);
                          ("category", PyNone);
                          ("start_date", PyNone);
                          ("end_date", PyNone)])])
             (Some 2%nat))
    /\ List.length formatted = 2%nat
    /\ Z.min (Z.of_nat (List.length (Sample.articles 3)))
             (MAX_RESULTS (mkConfig 15 "en" (-1)))
       = -1.
Proof.
  eexists. split; [vm_compute; reflexivity|]. split; reflexivity.
Qed.

(** ** The reference lookups *)

Section ReferenceFacts.

Variable cfg : Config.
Variable transport : nat -> Request -> Exchange.
Variables key endpoint : string.
Variable empty : PyVal.
Variables total_key failure : string.

Abbreviation lookup_op :=
  (reference_lookup cfg transport key endpoint empty total_key failure).

Lemma reference_lookup_hit (w : World) :
  truthy (get_cached_data key w) = true ->
  lookup_op w
  = (Ret (json_dumps (PyDict [("status", PyStr "success");
                              ("source", PyStr "cache");
                              (key, get_cached_data key w)])
                     (Some 2%nat)), w).
Proof.
  intros H. unfold reference_lookup, try_except. rewrite H. reflexivity.
Qed.

(** On a miss the lookup is its request and what follows it. *)
Lemma reference_lookup_miss (w : World) :
  truthy (get_cached_data key w) = false ->
  lookup_op w
  = match make_api_request cfg transport endpoint None w with
    | (Raise e, w1) => (Ret (error_result (exn_str e)), w1)
    | (Ret response, w1) =>
        match response with
        | PyDict d =>
            if py_eq_str (dict_get d "status" PyNone) "ok" then
              let dataset := dict_get d key empty in
              let w2 := set_cached_data key dataset w1 in
              match py_len dataset with
              | Ret total =>
                  (Ret (json_dumps (PyDict [("status", PyStr "success");
                                            ("source", PyStr "api");
                                            (key, dataset);
                                            (total_key, PyInt total)])
                                   (Some 2%nat)), w2)
              | Raise e => (Ret (error_result (exn_str e)), w2)
              end
            else (Ret (error_result failure), w1)
        | _ => (Ret (error_result (exn_str (no_attribute response "get"))), w1)
        end
    end.
Proof.
  intros H. unfold reference_lookup, try_except, bind, lift, ret. rewrite H.
  destruct (make_api_request cfg transport endpoint None w) as [[response|e] w1];
    [|reflexivity].
  destruct response; simpl; try reflexivity.
  destruct (py_eq_str _ "ok"); simpl; [|reflexivity].
  destruct (py_len _); reflexivity.
Qed.

Lemma status_ok_field (d : list (string * PyVal)) :
  py_eq_str (dict_get d "status" PyNone) "ok" = true
  <-> field (PyDict d) "status" = Some (PyStr "ok").
Proof.
  unfold dict_get. simpl. destruct (dict_lookup d "status") as [v|]; simpl.
  - destruct v; simpl; try (split; discriminate).
    destruct (String.eqb_spec s "ok"); split; intros; congruence.
  - split; discriminate.
Qed.

(** The cache after a lookup: as before, or with the dataset of an
    ["ok"] response under the key. *)
Lemma reference_lookup_cache (w : World) :
  let fetch := make_api_request cfg transport endpoint None w in
  let w' := snd (lookup_op w) in
  (_cache w' = _cache w
   \/ exists response dataset,
       fst fetch = Ret response
       /\ field response "status" = Some (PyStr "ok")
       /\ py_get response key empty = Ret dataset
       /\ _cache w' = <[key := mkEntry dataset (now (snd fetch))]> (_cache w))
  /\ (forall e, fst fetch = Raise e -> _cache w' = _cache w)
  /\ (forall response,
         fst fetch = Ret response ->
         field response "status" <> Some (PyStr "ok") ->
         _cache w' = _cache w).
Proof.
  intros fetch w'. subst w'.
  pose proof (make_api_request_cache cfg transport endpoint None w) as Hc.
  fold fetch in Hc.
  destruct (truthy (get_cached_data key w)) eqn:Hhit.
  { rewrite (reference_lookup_hit w Hhit). simpl.
    split; [left; reflexivity | split; intros; reflexivity]. }
  rewrite (reference_lookup_miss w Hhit). fold fetch.
  destruct fetch as [[response|e] w1]; simpl in *.
  2:{ split; [left; exact Hc | split; intros; exact Hc]. }
  destruct response as [| | | | | |d]; simpl;
    try (split; [left; exact Hc | split; intros; exact Hc]).
  destruct (py_eq_str (dict_get d "status" PyNone) "ok") eqn:Hok.
  - apply status_ok_field in Hok.
    assert (Hw : _cache (set_cached_data key (dict_get d key empty) w1)
                 = <[key := mkEntry (dict_get d key empty) (now w1)]> (_cache w)).
    { simpl. rewrite Hc. reflexivity. }
    split; [|split].
    + right. exists (PyDict d), (dict_get d key empty).
      repeat split; try assumption.
      destruct (py_len _); simpl; exact Hw.
    + intros e He. discriminate He.
    + intros response Hr Hn. injection Hr as <-. contradiction.
  - simpl. split; [left; exact Hc | split; intros; exact Hc].
Qed.

End ReferenceFacts.

(** C9. A reference lookup leaves the cache as it was unless its request
    returned a body with status ["ok"], in which case the cache is the old
    one with the key set to that body's dataset, stamped with the time
    after the request; it leaves the cache as it was whenever the request
    raised, and whenever the body's status is not ["ok"]. *)
Theorem cache_written_only_on_ok
        (cfg : Config) (date_parser_parse : string -> Res unit)
        (transport : nat -> Request -> Exchange) (isoformat_now : Q -> string)
        (op : Operation) (key : string) (w : World) :
  reference_key op = Some key ->
  let fetch := make_api_request cfg transport (fst (request_of cfg op)) None w in
  let w' := snd (run cfg date_parser_parse transport isoformat_now op w) in
  (_cache w' = _cache w
   \/ exists response dataset,
       fst fetch = Ret response
       /\ field response "status" = Some (PyStr "ok")
       /\ _cache w' = <[key := mkEntry dataset (now (snd fetch))]> (_cache w))
  /\ (forall e, fst fetch = Raise e -> _cache w' = _cache w)
  /\ (forall response,
         fst fetch = Ret response ->
         field response "status" <> Some (PyStr "ok") ->
         _cache w' = _cache w).
Proof.
  intros Hkey.
  destruct op; try discriminate Hkey; injection Hkey as <-; simpl;
    unfold get_available_languages, get_available_regions,
      get_available_categories;
    match goal with
    | |- context [reference_lookup _ _ ?key ?endpoint ?empty ?total ?failure w] =>
        destruct (reference_lookup_cache cfg transport key endpoint empty total
                                         failure w)
          as ([Hsame | (response & dataset & Hf & Hs & _ & Hc)] & Hraise & Hbad)
    end;
    (split; [|split; assumption]).
  all: try (left; exact Hsame).
  all: right; exists response, dataset; auto.
Qed.

Lemma cache_written_only_on_ok_witness :
  _cache (snd (get_available_regions
                 Sample.cfg
                 (Sample.always (Response 200 "" (Ret (PyDict [("status", PyStr "error")]))))
                 (Sample.world (Some "key"))))
  = ∅.
Proof.
  destruct (cache_written_only_on_ok
              Sample.cfg Sample.parse
              (Sample.always (Response 200 "" (Ret (PyDict [("status", PyStr "error")]))))
              Sample.isoformat_now GetAvailableRegions "regions"
              (Sample.world (Some "key")) eq_refl)
    as (_ & _ & Hbad).
  apply (Hbad (PyDict [("status", PyStr "error")])); [reflexivity | discriminate].
Defined.

(** ** Two lookups in a row *)

(** C2, as the code has it.  When a first call is tagged ["api"] and its
    dataset is not empty, the dataset is in the cache, and a second call
    made while the entry is younger than [CACHE_TTL] returns the same
    dataset tagged ["cache"], without the count, in the state it found:
    nothing is sent, whatever the network would have answered. *)
Theorem reference_lookup_served_from_cache
        (cfg : Config) (date_parser_parse : string -> Res unit)
        (transport transport' : nat -> Request -> Exchange)
        (isoformat_now : Q -> string)
        (op : Operation) (key : string) (w : World) (r1 : Json) (dataset : PyVal) :
  reference_key op = Some key ->
  fst (run cfg date_parser_parse transport isoformat_now op w) = Ret r1 ->
  field (doc r1) "source" = Some (PyStr "api") ->
  field (doc r1) key = Some dataset ->
  truthy dataset = true ->
  let w1 := snd (run cfg date_parser_parse transport isoformat_now op w) in
  _cache w1 !! key = Some (mkEntry dataset (now w1))
  /\ forall w2,
      _cache w2 !! key = _cache w1 !! key ->
      (now w2 - now w1 < CACHE_TTL)%Q ->
      run cfg date_parser_parse transport' isoformat_now op w2
      = (Ret (json_dumps (PyDict [("status", PyStr "success");
                                  ("source", PyStr "cache");
                                  (key, dataset)])
                         (Some 2%nat)), w2).
Proof.
  intros Hkey.
  destruct op; try discriminate Hkey; injection Hkey as <-; simpl;
    unfold get_available_languages, get_available_regions,
      get_available_categories.
  all: match goal with
       | |- context [reference_lookup _ _ ?key ?endpoint ?empty ?total
                                      ?failure _] =>
           destruct (truthy (get_cached_data key w)) eqn:Hhit;
           [rewrite (reference_lookup_hit cfg transport key endpoint empty total
                                          failure w Hhit);
            simpl; intros [= <-]; discriminate|];
           rewrite (reference_lookup_miss cfg transport key endpoint empty total
                                          failure w Hhit);
           destruct (make_api_request cfg transport endpoint None w)
             as [[response|e] w1];
           [|simpl; intros [= <-]; discriminate];
           destruct response as [| | | | | |d];
           try (simpl; intros [= <-]; discriminate);
           destruct (py_eq_str (dict_get d "status" PyNone) "ok");
           [|simpl; intros [= <-]; discriminate];
           cbv zeta;
           destruct (py_len (dict_get d key empty)) as [total'|e];
           [|simpl; intros [= <-]; discriminate];
           simpl; intros [= <-] _ [= <-] Htruthy;
           split; [apply lookup_insert_eq|];
           intros w2 Hsame Hyoung;
           rewrite lookup_insert_eq in Hsame;
           assert (Hget : get_cached_data key w2 = dict_get d key empty)
             by (unfold get_cached_data, is_cache_valid; rewrite Hsame; simpl;
                 apply Qltb_lt in Hyoung; rewrite Hyoung; reflexivity);
           assert (Hhit2 : truthy (get_cached_data key w2) = true)
             by (rewrite Hget; exact Htruthy);
           rewrite (reference_lookup_hit cfg transport' key endpoint empty total
                                         failure w2 Hhit2), Hget;
           reflexivity
       end.
Qed.

Lemma reference_lookup_served_from_cache_witness :
  get_available_languages Sample.cfg (Sample.always TimeoutException)
                          (at_time 1300 (Sample.after_first Sample.one_language))
  = (Ret (json_dumps (PyDict [("status", PyStr "success");
                              ("source", PyStr "cache");
                              ("languages", PyDict [("English", PyStr "en")])])
                     (Some 2%nat)),
     at_time 1300 (Sample.after_first Sample.one_language)).
Proof.
  destruct (reference_lookup_served_from_cache
              Sample.cfg Sample.parse Sample.one_language
              (Sample.always TimeoutException)
              Sample.isoformat_now GetAvailableLanguages "languages"
              (Sample.world (Some "key"))
              (json_dumps (PyDict [("status", PyStr "success");
                                   ("source", PyStr "api");
                                   ("languages", PyDict [("English", PyStr "en")]);
                                   ("total_languages", PyInt 1)])
                          (Some 2%nat))
              (PyDict [("English", PyStr "en")])
              eq_refl eq_refl eq_refl eq_refl eq_refl)
    as (_ & Hagain).
  apply (Hagain (at_time 1300 (Sample.after_first Sample.one_language))).
  - reflexivity.
  - vm_compute. reflexivity.
Defined.

(** C2, as the specification states it, fails.  When the provider's
    languages are [{}], the first call is tagged ["api"] and caches them,
    the entry is valid, and the second call, made at once, goes to the
    provider again and is tagged ["api"] too.  When they are not empty, the second call
    is tagged ["cache"] and has the dataset but not the count the first
    one has. *)
Lemma second_lookup_differs :
  (fst (get_available_languages Sample.cfg Sample.no_language
                                (Sample.world (Some "key")))
   = Ret (json_dumps (PyDict [("status", PyStr "success");
                              ("source", PyStr "api");
                              ("languages", PyDict []);
                              ("total_languages", PyInt 0)])
                     (Some 2%nat))
   /\ is_cache_valid "languages" (Sample.after_first Sample.no_language) = true
   /\ fst (get_available_languages Sample.cfg Sample.no_language
                                   (Sample.after_first Sample.no_language))
      = Ret (json_dumps (PyDict [("status", PyStr "success");
                                 ("source", PyStr "api");
                                 ("languages", PyDict []);
                                 ("total_languages", PyInt 0)])
                        (Some 2%nat))
   /\ sent (Sample.after_first Sample.no_language)
      = [request_for "key" "available/languages" None]
   /\ sent (snd (get_available_languages Sample.cfg Sample.no_language
                                         (Sample.after_first Sample.no_language)))
      = [request_for "key" "available/languages" None;
         request_for "key" "available/languages" None])
  /\ (fst (get_available_languages Sample.cfg Sample.one_language
                                   (Sample.world (Some "key")))
      = Ret (json_dumps (PyDict [("status", PyStr "success");
                                 ("source", PyStr "api");
                                 ("languages", PyDict [("English", PyStr "en")]);
                                 ("total_languages", PyInt 1)])
                        (Some 2%nat))
      /\ fst (get_available_languages Sample.cfg Sample.one_language
                                      (Sample.after_first Sample.one_language))
         = Ret (json_dumps (PyDict [("status", PyStr "success");
                                    ("source", PyStr "cache");
                                    ("languages", PyDict [("English", PyStr "en")])])
                           (Some 2%nat))).
Proof. vm_compute. repeat split. Qed.

(** ** Beyond the listed properties: what every operation does to the state *)

Section FrameFacts.

Variable cfg : Config.
Variable date_parser_parse : string -> Res unit.
Variable transport : nat -> Request -> Exchange.
Variable isoformat_now : Q -> string.

Abbreviation run_it := (run cfg date_parser_parse transport isoformat_now).

Ltac unfold_ops :=
  unfold search_news, get_latest_news, get_available_languages,
    get_available_regions, get_available_categories, reference_lookup,
    check_api_status, try_except, bind, lift, ret.

(** The state after an operation: the one before when nothing is sent,
    else the one after the exchange, with the dataset cached on top when
    a reference lookup stores one. *)
Lemma run_frame (op : Operation) (w : World) :
  (sends date_parser_parse op w = false -> snd (run_it op w) = w)
  /\ (sends date_parser_parse op w = true ->
      let req := request_in cfg op w in
      let w1 := after_exchange cfg req (transport (List.length (sent w)) req) w in
      snd (run_it op w) = w1
      \/ exists key dataset,
          reference_key op = Some key
          /\ snd (run_it op w) = set_cached_data key dataset w1).
Proof.
  unfold sends, request_in.
  destruct (truthy_opt (get_api_key w)) eqn:Hkey.
  - destruct (truthy_opt_key w Hkey) as (k & Hk & Ht). rewrite Hk.
    rewrite andb_true_l. simpl default.
    destruct op; simpl; unfold_ops; rewrite ?Hkey; simpl.
    + destruct (supplied_and_invalid date_parser_parse start_date)
        as [[|]|?]; simpl; try (split; [reflexivity | discriminate]).
      destruct (supplied_and_invalid date_parser_parse end_date)
        as [[|]|?]; simpl; try (split; [reflexivity | discriminate]).
      rewrite (make_api_request_sends cfg transport _ _ w k Hk Ht). simpl.
      split; [discriminate|]. intros _. left.
      match goal with
      | |- context [received cfg ?o] => destruct (received cfg o)
      end; simpl; [split_matches|]; reflexivity.
    + rewrite (make_api_request_sends cfg transport _ _ w k Hk Ht). simpl.
      split; [discriminate|]. intros _. left.
      match goal with
      | |- context [received cfg ?o] => destruct (received cfg o)
      end; simpl; [split_matches|]; reflexivity.
    + destruct (truthy (get_cached_data "languages" w)); simpl;
        [split; [reflexivity | discriminate]|].
      rewrite (make_api_request_sends cfg transport _ _ w k Hk Ht). simpl.
      split; [discriminate|]. intros _.
      match goal with
      | |- context [received cfg ?o] => destruct (received cfg o)
      end; simpl; [split_matches|];
        first [left; reflexivity
              | right; eexists _, _; split; reflexivity].
    + destruct (truthy (get_cached_data "regions" w)); simpl;
        [split; [reflexivity | discriminate]|].
      rewrite (make_api_request_sends cfg transport _ _ w k Hk Ht). simpl.
      split; [discriminate|]. intros _.
      match goal with
      | |- context [received cfg ?o] => destruct (received cfg o)
      end; simpl; [split_matches|];
        first [left; reflexivity
              | right; eexists _, _; split; reflexivity].
    + destruct (truthy (get_cached_data "categories" w)); simpl;
        [split; [reflexivity | discriminate]|].
      rewrite (make_api_request_sends cfg transport _ _ w k Hk Ht). simpl.
      split; [discriminate|]. intros _.
      match goal with
      | |- context [received cfg ?o] => destruct (received cfg o)
      end; simpl; [split_matches|];
        first [left; reflexivity
              | right; eexists _, _; split; reflexivity].
    + rewrite (make_api_request_sends cfg transport _ _ w k Hk Ht). simpl.
      split; [discriminate|]. intros _. left.
      match goal with
      | |- context [received cfg ?o] => destruct (received cfg o)
      end; simpl; [split_matches|]; reflexivity.
  - rewrite andb_false_l. split; [intros _ | discriminate].
    destruct op; simpl; unfold_ops; rewrite ?Hkey; simpl;
      rewrite ?(make_api_request_no_key cfg transport _ _ w Hkey); simpl;
      try reflexivity.
    all: try (destruct (supplied_and_invalid date_parser_parse start_date)
               as [[|]|?]; simpl; try reflexivity;
              destruct (supplied_and_invalid date_parser_parse end_date)
                as [[|]|?]; simpl; try reflexivity;
              rewrite ?(make_api_request_no_key cfg transport _ _ w Hkey);
              reflexivity).
    all: match goal with
         | |- context [truthy (get_cached_data ?key ?w0)] =>
             destruct (truthy (get_cached_data key w0)); reflexivity
         end.
Qed.

(** No operation lets an exception out. *)
Lemma run_returns (op : Operation) (w : World) :
  exists r,
    fst (run_it op w) = Ret r
    /\ (status_of r = Some (PyStr "success") \/ status_of r = Some (PyStr "error")).
Proof.
  destruct op; simpl; unfold_ops.
  all: split_matches.
  all: eexists; split; [reflexivity|]; first [left; reflexivity | right; reflexivity].
Qed.

End FrameFacts.

(** X1. No tool lets an exception out: whatever the state, the parser
    and the network do, each of the six operations returns a result, and
    the result is tagged ["success"] or ["error"]. *)
Theorem operations_never_raise
        (cfg : Config) (date_parser_parse : string -> Res unit)
        (transport : nat -> Request -> Exchange) (isoformat_now : Q -> string)
        (op : Operation) (w : World) :
  exists r,
    fst (run cfg date_parser_parse transport isoformat_now op w) = Ret r
    /\ (status_of r = Some (PyStr "success") \/ status_of r = Some (PyStr "error")).
Proof. apply run_returns. Qed.



(** X3. The HTTP client is made by the first operation that sends a
    request, with the configured timeout and the [User-Agent] header; an
    operation that sends nothing makes none, and a client that exists is
    kept as it is. *)
Theorem client_made_once
        (cfg : Config) (date_parser_parse : string -> Res unit)
        (transport : nat -> Request -> Exchange) (isoformat_now : Q -> string)
        (op : Operation) (w : World) :
  let w' := snd (run cfg date_parser_parse transport isoformat_now op w) in
  (forall c, http_client w = Some c -> http_client w' = Some c)
  /\ (http_client w = None ->
      http_client w'
      = if sends date_parser_parse op w
        then Some (mkClient (DEFAULT_TIMEOUT cfg) [("User-Agent", "CurrentsMCP/1.0")])
        else None).
Proof.
  intros w'. subst w'.
  destruct (run_frame cfg date_parser_parse transport isoformat_now op w)
    as (Hno & Hyes).
  destruct (sends date_parser_parse op w).
  - specialize (Hyes eq_refl). cbv zeta in Hyes.
    assert (Hc : http_client
                   (snd (run cfg date_parser_parse transport isoformat_now op w))
                 = Some (default (mkClient (DEFAULT_TIMEOUT cfg)
                                           [("User-Agent", "CurrentsMCP/1.0")])
                                 (http_client w))).
    { destruct Hyes as [-> | (key & dataset & _ & ->)]; reflexivity. }
    rewrite Hc. split.
    + intros c ->. reflexivity.
    + intros ->. reflexivity.
  - rewrite (Hno eq_refl). split; [intros c Hc; exact Hc | intros Hn; exact Hn].
Qed.

Lemma client_made_once_witness :
  http_client (snd (run Sample.cfg Sample.parse Sample.one_language
                        Sample.isoformat_now CheckApiStatus
                        (Sample.world (Some "key"))))
  = Some (mkClient 15 [("User-Agent", "CurrentsMCP/1.0")]).
Proof.
  destruct (client_made_once
              Sample.cfg Sample.parse Sample.one_language Sample.isoformat_now
              CheckApiStatus (Sample.world (Some "key")))
    as (_ & Hnone).
  rewrite (Hnone eq_refl). reflexivity.
Defined.

(** X4. An operation that sends nothing leaves the whole state as it
    found it: no credential, a date turned down, a parser that raised, a
    cache hit. *)
Theorem nothing_sent_nothing_changed
        (cfg : Config) (date_parser_parse : string -> Res unit)
        (transport : nat -> Request -> Exchange) (isoformat_now : Q -> string)
        (op : Operation) (w : World) :
  sends date_parser_parse op w = false ->
  snd (run cfg date_parser_parse transport isoformat_now op w) = w.
Proof.
  apply (run_frame cfg date_parser_parse transport isoformat_now op w).
Qed.

Lemma nothing_sent_nothing_changed_witness :
  snd (run Sample.cfg Sample.parse Sample.one_language Sample.isoformat_now
           (SearchNews None None None None None (Some "tomorrow"))
           (Sample.world (Some "key")))
  = Sample.world (Some "key").
Proof.
  apply (nothing_sent_nothing_changed
           Sample.cfg Sample.parse Sample.one_language Sample.isoformat_now
           (SearchNews None None None None None (Some "tomorrow"))
           (Sample.world (Some "key"))).
  reflexivity.
Defined.

(** X5. Only a reference lookup writes the cache, and only under its own
    key: a search, the latest news and the status check leave the cache as
    it is, and a lookup leaves every other key's entry as it is. *)
Theorem cache_frame
        (cfg : Config) (date_parser_parse : string -> Res unit)
        (transport : nat -> Request -> Exchange) (isoformat_now : Q -> string)
        (op : Operation) (w : World) :
  let w' := snd (run cfg date_parser_parse transport isoformat_now op w) in
  (reference_key op = None -> _cache w' = _cache w)
  /\ (forall k : string, reference_key op <> Some k -> _cache w' !! k = _cache w !! k).
Proof.
  intros w'. subst w'.
  destruct (run_frame cfg date_parser_parse transport isoformat_now op w)
    as (Hno & Hyes).
  destruct (sends date_parser_parse op w).
  - specialize (Hyes eq_refl). cbv zeta in Hyes.
    destruct Hyes as [-> | (key & dataset & Hkey & ->)].
    + split; reflexivity.
    + split.
      * intros Hn. congruence.
      * intros k Hk. simpl. apply lookup_insert_ne. congruence.
  - rewrite (Hno eq_refl). split; reflexivity.
Qed.

Lemma cache_frame_witness :
  _cache (snd (run Sample.cfg Sample.parse Sample.one_language Sample.isoformat_now
                   (GetLatestNews None)
                   (Sample.after_first Sample.one_language)))
  = _cache (Sample.after_first Sample.one_language).
Proof.
  destruct (cache_frame
              Sample.cfg Sample.parse Sample.one_language Sample.isoformat_now
              (GetLatestNews None) (Sample.after_first Sample.one_language))
    as (Hnone & _).
  apply Hnone. reflexivity.
Defined.

(** ** The failures C5 leaves *)

Lemma other_failure_raises (cfg : Config) (o : HttpOutcome) (msg : string) :
  other_failure o msg -> exists e, received cfg o = Raise e /\ exn_str e = msg.
Proof.
  intros H. destruct H as [err json | code err json Hc | code err json Hc H0 H1 H9
                           | code err e Hc | msg]; unfold received.
  - eexists. split; reflexivity.
  - destruct (Z.eqb_spec code 401); [lia|].
    destruct (Z.eqb_spec code 429); [lia|].
    destruct (Z.eqb_spec code 400); [lia|].
    destruct (Z.leb_spec 500 code); [|lia].
    eexists. split; reflexivity.
  - destruct (Z.eqb_spec code 401); [contradiction|].
    destruct (Z.eqb_spec code 429); [contradiction|].
    destruct (Z.eqb_spec code 400); [contradiction|].
    destruct (Z.leb_spec 500 code); [lia|].
    destruct (Z.leb_spec 200 code); destruct (Z.leb_spec code 299); simpl;
      try lia; eexists; split; reflexivity.
  - destruct (Z.eqb_spec code 401); [lia|].
    destruct (Z.eqb_spec code 429); [lia|].
    destruct (Z.eqb_spec code 400); [lia|].
    destruct (Z.leb_spec 500 code); [lia|].
    destruct (Z.leb_spec 200 code); [|lia].
    destruct (Z.leb_spec code 299); [|lia].
    simpl. eexists. split; reflexivity.
  - eexists. split; reflexivity.
Qed.

(** X6. Whichever operation sent the request: a 400 answer, a 5xx
    answer, any other answer outside 2xx, a 2xx answer whose body does not
    decode, and a transport failure each give an error result, carrying
    the bad-request text, the server-error text, the text of the status
    error, the text of the decoding error, and ["Network error: "]
    followed by the cause. *)
Theorem other_failures_reported
        (cfg : Config) (date_parser_parse : string -> Res unit)
        (transport : nat -> Request -> Exchange) (isoformat_now : Q -> string)
        (op : Operation) (w : World) (req : Request) (msg : string) :
  sent (snd (run cfg date_parser_parse transport isoformat_now op w)) = req :: sent w ->
  other_failure (outcome (transport (List.length (sent w)) req)) msg ->
  exists r,
    fst (run cfg date_parser_parse transport isoformat_now op w) = Ret r
    /\ status_of r = Some (PyStr "error")
    /\ carries_message r msg.
Proof.
  intros Hsent Hfail.
  destruct (run_cases cfg date_parser_parse transport isoformat_now op w)
    as [Hno | (k & Hk & Ht & Hs & Hr)].
  - rewrite Hno in Hsent. exfalso. exact (cons_neq_self _ _ Hsent).
  - rewrite Hs in Hsent. injection Hsent as Hreq. rewrite Hreq in Hr.
    destruct (other_failure_raises cfg _ _ Hfail) as (e & He & <-).
    exists (failure_result op e).
    split; [apply Hr; exact He|].
    apply (failure_result_error op e).
Qed.

Lemma other_failures_reported_witness :
  exists r,
    fst (run Sample.cfg Sample.parse
             (Sample.always (Response 503 "Server error '503'" (Ret PyNone)))
             Sample.isoformat_now GetAvailableRegions (Sample.world (Some "key")))
    = Ret r
    /\ status_of r = Some (PyStr "error")
    /\ carries_message r "API server error. Please try again later.".
Proof.
  apply (other_failures_reported
           Sample.cfg Sample.parse
           (Sample.always (Response 503 "Server error '503'" (Ret PyNone)))
           Sample.isoformat_now GetAvailableRegions (Sample.world (Some "key"))
           (request_for "key" "available/regions" None)).
  - reflexivity.
  - apply server_error. simpl. lia.
Defined.

(** ** The cache, written and read back *)

(** X7. What [set_cached_data] stores under a key, [get_cached_data]
    reads back under that key for as long as less than [CACHE_TTL] has
    passed, and [None] from then on; other keys read as before the write,
    and a second write under the key replaces the first. *)
Theorem cache_round_trip (k : string) (d : PyVal) (w : World) :
  (forall t, (t - now w < CACHE_TTL)%Q ->
             get_cached_data k (at_time t (set_cached_data k d w)) = d)
  /\ (forall t, (CACHE_TTL <= t - now w)%Q ->
                get_cached_data k (at_time t (set_cached_data k d w)) = PyNone)
  /\ (forall k' t, k' <> k ->
                   get_cached_data k' (at_time t (set_cached_data k d w))
                   = get_cached_data k' (at_time t w))
  /\ (forall d', set_cached_data k d' (set_cached_data k d w)
                 = set_cached_data k d' w).
Proof.
  split; [|split; [|split]].
  - intros t Ht. unfold get_cached_data.
    pose proof (proj2 (is_cache_valid_after_set k d t w) Ht) as Hv.
    rewrite Hv, lookup_after_set. reflexivity.
  - intros t Ht. unfold get_cached_data.
    destruct (is_cache_valid k (at_time t (set_cached_data k d w))) eqn:Hv;
      [|reflexivity].
    apply is_cache_valid_after_set in Hv. lra.
  - intros k' t Hne. unfold get_cached_data, is_cache_valid. simpl.
    rewrite lookup_insert_ne by congruence. reflexivity.
  - intros d'. unfold set_cached_data. simpl. rewrite insert_insert_eq.
    reflexivity.
Qed.

Lemma cache_round_trip_witness :
  get_cached_data "regions"
    (at_time 1299 (set_cached_data "regions" (PyList [PyStr "US"])
                                   (Sample.world None)))
  = PyList [PyStr "US"].
Proof.
  destruct (cache_round_trip "regions" (PyList [PyStr "US"]) (Sample.world None))
    as (Hget & _).
  apply Hget. vm_compute. reflexivity.
Defined.

(** ** The reference lookups, hit and miss *)

Lemma truthy_cached_fresh (k : string) (w : World) :
  truthy (get_cached_data k w) = true ->
  exists e,
    _cache w !! k = Some e
    /\ (now w - timestamp e < CACHE_TTL)%Q
    /\ get_cached_data k w = data e.
Proof.
  unfold get_cached_data. destruct (is_cache_valid k w) eqn:Hv; [|discriminate].
  apply is_cache_valid_spec in Hv as (e & He & Hage).
  rewrite He. intros _. exists e. auto.
Qed.

(** X8. A reference lookup never serves a stale entry: a result tagged
    ["cache"] comes from an entry stored less than [CACHE_TTL] ago, holds
    that entry's data, and leaves the state as it was, with nothing
    sent. *)
Theorem cache_hit_is_fresh
        (cfg : Config) (date_parser_parse : string -> Res unit)
        (transport : nat -> Request -> Exchange) (isoformat_now : Q -> string)
        (op : Operation) (key : string) (w : World) (r : Json) :
  reference_key op = Some key ->
  fst (run cfg date_parser_parse transport isoformat_now op w) = Ret r ->
  field (doc r) "source" = Some (PyStr "cache") ->
  exists e,
    _cache w !! key = Some e
    /\ (now w - timestamp e < CACHE_TTL)%Q
    /\ field (doc r) key = Some (data e)
    /\ snd (run cfg date_parser_parse transport isoformat_now op w) = w.
Proof.
  intros Hkey.
  destruct op; try discriminate Hkey; injection Hkey as <-; simpl;
    unfold get_available_languages, get_available_regions,
      get_available_categories.
  all: match goal with
       | |- context [reference_lookup _ _ ?key ?endpoint ?empty ?total
                                      ?failure _] =>
           destruct (truthy (get_cached_data key w)) eqn:Hhit;
           [rewrite (reference_lookup_hit cfg transport key endpoint empty total
                                          failure w Hhit);
            destruct (truthy_cached_fresh key w Hhit) as (e & He & Hage & Hget);
            simpl; intros [= <-] _; exists e; rewrite Hget; auto
           |rewrite (reference_lookup_miss cfg transport key endpoint empty total
                                           failure w Hhit);
            destruct (make_api_request cfg transport endpoint None w)
              as [[response|e] w1];
            [|simpl; intros [= <-]; discriminate];
            destruct response as [| | | | | |d];
            try (simpl; intros [= <-]; discriminate);
            destruct (py_eq_str (dict_get d "status" PyNone) "ok");
            [|simpl; intros [= <-]; discriminate];
            cbv zeta;
            destruct (py_len (dict_get d key empty)) as [total'|e];
            simpl; intros [= <-]; discriminate]
       end.
Qed.

Lemma cache_hit_is_fresh_witness :
  exists e,
    _cache (at_time 1300 (Sample.after_first Sample.one_language)) !! "languages"
    = Some e
    /\ (1300 - timestamp e < CACHE_TTL)%Q.
Proof.
  destruct (cache_hit_is_fresh
              Sample.cfg Sample.parse (Sample.always TimeoutException)
              Sample.isoformat_now GetAvailableLanguages "languages"
              (at_time 1300 (Sample.after_first Sample.one_language))
              (json_dumps (PyDict [("status", PyStr "success");
                                   ("source", PyStr "cache");
                                   ("languages", PyDict [("English", PyStr "en")])])
                          (Some 2%nat))
              eq_refl eq_refl eq_refl)
    as (e & He & Hage & _).
  exists e. split; [exact He | exact Hage].
Defined.

(** X9. On a miss answered 2xx with status ["ok"], a reference lookup
    stores the dataset of the body, or the empty default when the body has
    none, stamped with the time after the exchange, before it counts it:
    a dataset with a length gives the result tagged ["api"] with that
    count, and one without gives an error result while the dataset stays
    cached. *)
Theorem reference_lookup_fetch
        (cfg : Config) (transport : nat -> Request -> Exchange)
        (key endpoint : string) (empty : PyVal) (total_key failure : string)
        (w : World) (k : string) (status_code : Z) (err : string)
        (body : list (string * PyVal)) :
  truthy (get_cached_data key w) = false ->
  get_api_key w = Some k ->
  truthy (PyStr k) = true ->
  outcome (transport (List.length (sent w)) (request_for k endpoint None))
  = Response status_code err (Ret (PyDict body)) ->
  200 <= status_code <= 299 ->
  dict_lookup body "status" = Some (PyStr "ok") ->
  let dataset := dict_get body key empty in
  let r := fst (reference_lookup cfg transport key endpoint empty total_key failure w) in
  let w' := snd (reference_lookup cfg transport key endpoint empty total_key failure w) in
  _cache w' = <[key := mkEntry dataset (now w')]> (_cache w)
  /\ now w' = (now w + took (transport (List.length (sent w))
                                       (request_for k endpoint None)))%Q
  /\ (forall n,
         py_len dataset = Ret n ->
         r = Ret (json_dumps (PyDict [("status", PyStr "success");
                                      ("source", PyStr "api");
                                      (key, dataset);
                                      (total_key, PyInt n)])
                             (Some 2%nat)))
  /\ (forall e, py_len dataset = Raise e -> r = Ret (error_result (exn_str e))).
Proof.
  intros Hmiss Hk Ht Hout Hcode Hstatus dataset r w'. subst dataset r w'.
  rewrite (reference_lookup_miss cfg transport key endpoint empty total_key
                                 failure w Hmiss).
  rewrite (make_api_request_sends cfg transport _ _ w k Hk Ht). cbv zeta.
  rewrite Hout, (received_success _ _ _ _ Hcode).
  assert (Hok : py_eq_str (dict_get body "status" PyNone) "ok" = true).
  { unfold dict_get. rewrite Hstatus. reflexivity. }
  rewrite Hok.
  destruct (py_len (dict_get body key empty)) as [n|e]; simpl;
    (split; [reflexivity|]; split; [reflexivity|]; split; intros ? H);
    try discriminate H; injection H as <-; reflexivity.
Qed.

Lemma reference_lookup_fetch_witness :
  fst (get_available_categories
         Sample.cfg (Sample.always (Sample.ok_body [("categories", PyNone)]))
         (Sample.world (Some "key")))
  = Ret (error_result "object of type 'NoneType' has no len()")
  /\ _cache (snd (get_available_categories
                    Sample.cfg (Sample.always (Sample.ok_body [("categories", PyNone)]))
                    (Sample.world (Some "key")))) !! "categories"
     = Some (mkEntry PyNone 1001).
Proof.
  destruct (reference_lookup_fetch
              Sample.cfg (Sample.always (Sample.ok_body [("categories", PyNone)]))
              "categories" "available/category" (PyList [])
              "total_categories" "Failed to retrieve supported categories"
              (Sample.world (Some "key")) "key" 200 ""
              [("status", PyStr "ok"); ("categories", PyNone)])
    as (Hcache & _ & _ & Herr).
  - reflexivity.
  - reflexivity.
  - reflexivity.
  - reflexivity.
  - simpl. lia.
  - reflexivity.
  - split.
    + apply (Herr (mkExn TypeError "object of type 'NoneType' has no len()")).
      reflexivity.
    + unfold get_available_categories. rewrite Hcache. reflexivity.
Defined.

(** ** Search and the other answers *)

(** X10. When the parser raises something other than a [ValueError] or a
    [TypeError] on a date that is supplied and not empty (the start date,
    or the end date once the start date is through), [search_news]
    returns an error result with the text of that exception, not the
    format hint, and leaves the state as it was. *)
Theorem search_news_parser_raises
        (cfg : Config) (date_parser_parse : string -> Res unit)
        (transport : nat -> Request -> Exchange)
        (keywords language country category start_date end_date : option string)
        (w : World) (s : string) (e : Exn) :
  s <> "" ->
  date_parser_parse s = Raise e ->
  is_value_or_type_error e = false ->
  start_date = Some s
  \/ (acceptable date_parser_parse start_date /\ end_date = Some s) ->
  search_news cfg date_parser_parse transport
              keywords language country category start_date end_date w
  = (Ret (error_result (exn_str e)), w).
Proof.
  intros Hs Hp He Hwhich.
  assert (Hraise : supplied_and_invalid date_parser_parse (Some s) = Raise e).
  { unfold supplied_and_invalid, truthy_opt. simpl of_opt.
    apply truthy_str_nonempty in Hs. rewrite Hs.
    unfold validate_date_format. rewrite Hp, He. reflexivity. }
  unfold search_news, try_except, bind, lift.
  destruct Hwhich as [-> | (Ha & ->)].
  - rewrite Hraise. reflexivity.
  - rewrite (acceptable_valid _ _ Ha), Hraise. reflexivity.
Qed.

Lemma search_news_parser_raises_witness :
  search_news Sample.cfg
              (fun _ => Raise (mkExn OverflowError "Python int too large to convert to C long"))
              Sample.one_language
              None None None None (Some "99999999999999999999") None
              (Sample.world (Some "key"))
  = (Ret (error_result "Python int too large to convert to C long"),
     Sample.world (Some "key")).
Proof.
  apply (search_news_parser_raises
           Sample.cfg
           (fun _ => Raise (mkExn OverflowError "Python int too large to convert to C long"))
           Sample.one_language
           None None None None (Some "99999999999999999999") None
           (Sample.world (Some "key")) "99999999999999999999"
           (mkExn OverflowError "Python int too large to convert to C long")).
  - discriminate.
  - reflexivity.
  - reflexivity.
  - left. reflexivity.
Defined.

(** X11. When the request is sent and answered 2xx with a JSON object
    whose status is not ["ok"] (or that has none), every operation returns
    an error result with its own fixed text. *)
Theorem not_ok_reported
        (cfg : Config) (date_parser_parse : string -> Res unit)
        (transport : nat -> Request -> Exchange) (isoformat_now : Q -> string)
        (op : Operation) (w : World) (status_code : Z) (err : string)
        (body : list (string * PyVal)) :
  sends date_parser_parse op w = true ->
  outcome (transport (List.length (sent w)) (request_in cfg op w))
  = Response status_code err (Ret (PyDict body)) ->
  200 <= status_code <= 299 ->
  dict_lookup body "status" <> Some (PyStr "ok") ->
  exists r,
    fst (run cfg date_parser_parse transport isoformat_now op w) = Ret r
    /\ status_of r = Some (PyStr "error")
    /\ message_of r = Some (PyStr (not_ok_message op)).
Proof.
  unfold sends, request_in. intros Hs Hout Hcode Hstatus.
  apply andb_true_iff in Hs as (Hkey & Hs).
  destruct (truthy_opt_key w Hkey) as (k & Hk & Ht).
  rewrite Hk in Hout. simpl default in Hout.
  assert (Hno : py_eq_str (dict_get body "status" PyNone) "ok" = false).
  { destruct (py_eq_str (dict_get body "status" PyNone) "ok") eqn:E;
      [|reflexivity].
    apply status_ok_field in E. contradiction. }
  destruct op; simpl in Hout |- *;
    unfold search_news, get_latest_news, get_available_languages,
      get_available_regions, get_available_categories, reference_lookup,
      check_api_status, try_except, bind, lift, ret;
    rewrite ?Hkey; simpl.
  - destruct (supplied_and_invalid date_parser_parse start_date)
      as [[|]|?]; try discriminate Hs.
    destruct (supplied_and_invalid date_parser_parse end_date)
      as [[|]|?]; try discriminate Hs.
    simpl. rewrite (make_api_request_sends cfg transport _ _ w k Hk Ht). simpl.
    rewrite Hout, (received_success _ _ _ _ Hcode). simpl. rewrite Hno. simpl.
    eexists. repeat split.
  - rewrite (make_api_request_sends cfg transport _ _ w k Hk Ht). simpl.
    rewrite Hout, (received_success _ _ _ _ Hcode). simpl. rewrite Hno. simpl.
    eexists. repeat split.
  - apply negb_true_iff in Hs. rewrite Hs. simpl.
    rewrite (make_api_request_sends cfg transport _ _ w k Hk Ht). simpl.
    rewrite Hout, (received_success _ _ _ _ Hcode). simpl. rewrite Hno. simpl.
    eexists. repeat split.
  - apply negb_true_iff in Hs. rewrite Hs. simpl.
    rewrite (make_api_request_sends cfg transport _ _ w k Hk Ht). simpl.
    rewrite Hout, (received_success _ _ _ _ Hcode). simpl. rewrite Hno. simpl.
    eexists. repeat split.
  - apply negb_true_iff in Hs. rewrite Hs. simpl.
    rewrite (make_api_request_sends cfg transport _ _ w k Hk Ht). simpl.
    rewrite Hout, (received_success _ _ _ _ Hcode). simpl. rewrite Hno. simpl.
    eexists. repeat split.
  - rewrite (make_api_request_sends cfg transport _ _ w k Hk Ht). simpl.
    rewrite Hout, (received_success _ _ _ _ Hcode). simpl. rewrite Hno. simpl.
    eexists. repeat split.
Qed.

Lemma not_ok_reported_witness :
  exists r,
    fst (run Sample.cfg Sample.parse
             (Sample.always (Response 200 "" (Ret (PyDict [("status", PyStr "error")]))))
             Sample.isoformat_now CheckApiStatus (Sample.world (Some "key")))
    = Ret r
    /\ status_of r = Some (PyStr "error")
    /\ message_of r = Some (PyStr "API test failed").
Proof.
  apply (not_ok_reported
           Sample.cfg Sample.parse
           (Sample.always (Response 200 "" (Ret (PyDict [("status", PyStr "error")]))))
           Sample.isoformat_now CheckApiStatus (Sample.world (Some "key"))
           200 "" [("status", PyStr "error")]).
  - reflexivity.
  - reflexivity.
  - lia.
  - discriminate.
Defined.

(** ** The latest news *)

(** X12. [get_latest_news] asks for the given language, or for the
    default language when none or an empty one is given.  Answered 2xx
    with status ["ok"] and [n] articles that normalise, under a cap that
    is not negative, it returns the success result with that language,
    the first [min(n, MAX_RESULTS)] articles normalised and their number,
    and the time of day read after the exchange. *)
Theorem get_latest_news_result
        (cfg : Config) (transport : nat -> Request -> Exchange)
        (isoformat_now : Q -> string)
        (language : option string) (w : World) (k : string)
        (status_code : Z) (err : string)
        (body : list (string * PyVal)) (articles : list PyVal) :
  get_api_key w = Some k ->
  truthy (PyStr k) = true ->
  let req := request_for k "latest-news"
                         (Some [("language", or_default cfg language)]) in
  let x := transport (List.length (sent w)) req in
  outcome x = Response status_code err (Ret (PyDict body)) ->
  200 <= status_code <= 299 ->
  dict_lookup body "status" = Some (PyStr "ok") ->
  dict_lookup body "news" = Some (PyList articles) ->
  0 <= MAX_RESULTS cfg ->
  Forall normalisable (firstn (Z.to_nat (MAX_RESULTS cfg)) articles) ->
  (or_default cfg language
   = match language with
     | Some s => if String.eqb s "" then DEFAULT_LANGUAGE cfg else s
     | None => DEFAULT_LANGUAGE cfg
     end)
  /\ exists formatted,
      get_latest_news cfg transport isoformat_now language w
      = (Ret (json_dumps
                (PyDict
                   [("status", PyStr "success");
                    ("language", PyStr (or_default cfg language));
                    ("total_results",
                     PyInt (Z.min (Z.of_nat (List.length articles))
                                  (MAX_RESULTS cfg)));
                    ("articles", PyList formatted);
                    ("retrieved_at",
                     PyStr (isoformat_now (now w + took x)%Q))])
                (Some 2%nat)),
         after_exchange cfg req x w)
      /\ Forall2 (fun a f => format_news_article a = Ret f)
                 (firstn (Z.to_nat (MAX_RESULTS cfg)) articles) formatted.
Proof.
  intros Hk Ht req x Hout Hcode Hstatus Hnews Hmax Hnorm. subst req x.
  split.
  { unfold or_default. destruct language as [s|]; [|reflexivity].
    simpl. destruct (String.eqb s ""); reflexivity. }
  destruct (slice_to_cap articles (MAX_RESULTS cfg) Hmax) as (Hslice & Hlen).
  destruct (res_map_normalisable _ Hnorm) as (formatted & Hmap & Hlen' & Hall).
  exists formatted. split; [|exact Hall].
  assert (Hcount : Z.of_nat (List.length formatted)
                   = Z.min (Z.of_nat (List.length articles)) (MAX_RESULTS cfg)).
  { rewrite Hlen', <- Hslice. exact Hlen. }
  unfold get_latest_news, try_except, bind, lift, ret.
  rewrite (make_api_request_sends cfg transport _ _ w k Hk Ht). cbv zeta.
  rewrite Hout, (received_success _ _ _ _ Hcode). simpl.
  unfold dict_get. rewrite Hstatus. simpl. rewrite Hnews. simpl.
  rewrite Hslice, Hmap. simpl. rewrite Hcount. reflexivity.
Qed.

Lemma get_latest_news_result_witness :
  exists formatted,
    fst (get_latest_news Sample.cfg
                         (Sample.always
                            (Sample.ok_body [("news", PyList (Sample.articles 3))]))
                         Sample.isoformat_now (Some "")
                         (Sample.world (Some "key")))
    = Ret (json_dumps
             (PyDict
                [("status", PyStr "success");
                 ("language", PyStr "en");
                 ("total_results", PyInt 3);
                 ("articles", PyList formatted);
                 ("retrieved_at", PyStr "2024-01-15T10:30:00")])
             (Some 2%nat)).
Proof.
  destruct (get_latest_news_result
              Sample.cfg
              (Sample.always (Sample.ok_body [("news", PyList (Sample.articles 3))]))
              Sample.isoformat_now (Some "") (Sample.world (Some "key")) "key"
              200 "" [("status", PyStr "ok"); ("news", PyList (Sample.articles 3))]
              (Sample.articles 3))
    as (_ & formatted & Hr & _).
  - reflexivity.
  - reflexivity.
  - reflexivity.
  - lia.
  - reflexivity.
  - reflexivity.
  - simpl. lia.
  - simpl.
    repeat (constructor;
            [eexists _, _, _; split; [reflexivity | split; reflexivity]|]).
    constructor.
  - exists formatted. rewrite Hr. reflexivity.
Defined.

(** ** The parameters of a search *)

Lemma in_add_param (k0 : string) (o : option string)
      (params : list (string * string)) (k v : string) :
  In (k, v) (add_param k0 o params)
  <-> In (k, v) params \/ (k = k0 /\ forwarded o v).
Proof.
  unfold add_param, forwarded. destruct o as [s|].
  - destruct (truthy (PyStr s)) eqn:Hs.
    + apply truthy_str_nonempty in Hs. rewrite in_app_iff. simpl. split.
      * intros [H | [H | []]]; [left; exact H|]. injection H as <- <-. auto.
      * intros [H | (-> & [= ->] & _)]; [left; exact H | right; left; reflexivity].
    + split; [intros H; left; exact H|].
      intros [H | (_ & [= ->] & Hv)]; [exact H|].
      apply truthy_str_nonempty in Hv. congruence.
  - split; [intros H; left; exact H|].
    intros [H | (_ & Hn & _)]; [exact H | discriminate Hn].
Qed.

Lemma keys_add_param (k0 : string) (o : option string)
      (params : list (string * string)) :
  map fst (add_param k0 o params)
  = (map fst params ++ if truthy_opt o then [k0] else [])%list.
Proof.
  unfold add_param, truthy_opt. destruct o as [s|]; simpl.
  - destruct (negb (String.eqb s "")); simpl.
    + rewrite map_app. reflexivity.
    + rewrite app_nil_r. reflexivity.
  - rewrite app_nil_r. reflexivity.
Qed.

(** X13. The parameters of a search are the arguments that are supplied
    and not empty, each under its own name and none twice, in the order
    keywords, language, country, category, start date, end date; an
    argument that is absent or empty is not forwarded. *)
Theorem search_params_forwarded
        (keywords language country category start_date end_date : option string) :
  (forall k v,
      In (k, v) (search_params keywords language country category
                               start_date end_date)
      <-> (k = "keywords" /\ forwarded keywords v)
          \/ (k = "language" /\ forwarded language v)
          \/ (k = "country" /\ forwarded country v)
          \/ (k = "category" /\ forwarded category v)
          \/ (k = "start_date" /\ forwarded start_date v)
          \/ (k = "end_date" /\ forwarded end_date v))
  /\ map fst (search_params keywords language country category start_date end_date)
     = ((if truthy_opt keywords then ["keywords"] else [])
        ++ (if truthy_opt language then ["language"] else [])
        ++ (if truthy_opt country then ["country"] else [])
        ++ (if truthy_opt category then ["category"] else [])
        ++ (if truthy_opt start_date then ["start_date"] else [])
        ++ (if truthy_opt end_date then ["end_date"] else []))%list
  /\ List.NoDup (map fst (search_params keywords language country category
                                        start_date end_date)).
Proof.
  assert (Hkeys :
            map fst (search_params keywords language country category
                                   start_date end_date)
            = ((if truthy_opt keywords then ["keywords"] else [])
               ++ (if truthy_opt language then ["language"] else [])
               ++ (if truthy_opt country then ["country"] else [])
               ++ (if truthy_opt category then ["category"] else [])
               ++ (if truthy_opt start_date then ["start_date"] else [])
               ++ (if truthy_opt end_date then ["end_date"] else []))%list).
  { unfold search_params. rewrite !keys_add_param. simpl.
    rewrite <- !app_assoc. reflexivity. }
  split; [|split; [exact Hkeys|]].
  - intros k v. unfold search_params. rewrite !in_add_param. simpl. tauto.
  - rewrite Hkeys.
    destruct (truthy_opt keywords), (truthy_opt language), (truthy_opt country),
      (truthy_opt category), (truthy_opt start_date), (truthy_opt end_date);
      simpl; repeat (constructor; [simpl; intuition discriminate|]);
      constructor.
Qed.

Lemma search_params_forwarded_witness :
  In ("language", "en")
     (search_params (Some "") (Some "en") None None None None)
  /\ ~ In ("keywords", "") (search_params (Some "") (Some "en") None None None None).
Proof.
  destruct (search_params_forwarded (Some "") (Some "en") None None None None)
    as (Hin & _).
  split.
  - apply Hin. right. left. split; [reflexivity|]. split; [reflexivity | discriminate].
  - intros H. apply Hin in H.
    destruct H as [(_ & _ & Hne) | [(H & _) | [(H & _) | [(H & _) | [(H & _) | (H & _)]]]]];
      [apply Hne; reflexivity | discriminate H ..].
Defined.

(** ** A cap below zero *)

Lemma slice_to_negative {A} (l : list A) (k : Z) :
  k < 0 ->
  slice_to l k = firstn (Z.to_nat (Z.of_nat (List.length l) + k)) l
  /\ Z.of_nat (List.length (slice_to l k))
     = Z.max 0 (Z.of_nat (List.length l) + k).
Proof.
  intros Hk. unfold slice_to. destruct (Z.leb_spec 0 k); [lia|].
  split; [reflexivity|]. rewrite length_firstn. lia.
Qed.

(** X14. A negative [MAX_RESULTS] does not cap the search: the slice
    [articles[:MAX_RESULTS]] then drops that many articles from the end,
    so of [n] articles the first [max(0, n + MAX_RESULTS)] are returned,
    normalised, with that number as [total_results]. *)
Theorem search_news_negative_cap
        (cfg : Config) (date_parser_parse : string -> Res unit)
        (transport : nat -> Request -> Exchange)
        (keywords language country category start_date end_date : option string)
        (w : World) (k : string) (status_code : Z) (err : string)
        (body : list (string * PyVal)) (articles : list PyVal) :
  acceptable date_parser_parse start_date ->
  acceptable date_parser_parse end_date ->
  get_api_key w = Some k ->
  truthy (PyStr k) = true ->
  outcome (transport (List.length (sent w))
                     (request_for k "search"
                        (Some (search_params keywords language country category
                                             start_date end_date))))
  = Response status_code err (Ret (PyDict body)) ->
  200 <= status_code <= 299 ->
  dict_lookup body "status" = Some (PyStr "ok") ->
  dict_lookup body "news" = Some (PyList articles) ->
  MAX_RESULTS cfg < 0 ->
  Forall normalisable
         (firstn (Z.to_nat (Z.of_nat (List.length articles) + MAX_RESULTS cfg))
                 articles) ->
  exists formatted,
    fst (search_news cfg date_parser_parse transport
                     keywords language country category start_date end_date w)
    = Ret (json_dumps
             (PyDict
                [("status", PyStr "success");
                 ("total_results",
                  PyInt (Z.max 0 (Z.of_nat (List.length articles)
                                  + MAX_RESULTS cfg)));
                 ("articles", PyList formatted);
                 ("search_params",
                  PyDict [("keywords", of_opt keywords);
                          ("language", of_opt language);
                          ("country", of_opt country);
                          ("category", of_opt category);
                          ("start_date", of_opt start_date);
                          ("end_date", of_opt end_date)])])
             (Some 2%nat))
    /\ Forall2 (fun a f => format_news_article a = Ret f)
               (firstn (Z.to_nat (Z.of_nat (List.length articles)
                                  + MAX_RESULTS cfg)) articles)
               formatted.
Proof.
  intros Hs He Hk Ht Hout Hcode Hstatus Hnews Hmax Hnorm.
  destruct (slice_to_negative articles (MAX_RESULTS cfg) Hmax) as (Hslice & Hlen).
  destruct (res_map_normalisable _ Hnorm) as (formatted & Hmap & Hlen' & Hall).
  exists formatted. split; [|exact Hall].
  assert (Hcount : Z.of_nat (List.length formatted)
                   = Z.max 0 (Z.of_nat (List.length articles) + MAX_RESULTS cfg)).
  { rewrite Hlen', <- Hslice. exact Hlen. }
  unfold search_news, try_except, bind, lift, ret.
  rewrite (acceptable_valid _ _ Hs), (acceptable_valid _ _ He).
  rewrite (make_api_request_sends cfg transport _ _ w k Hk Ht). simpl.
  rewrite Hout, (received_success _ _ _ _ Hcode). simpl.
  unfold dict_get. rewrite Hstatus. simpl. rewrite Hnews. simpl.
  rewrite Hslice, Hmap. simpl. rewrite Hcount. reflexivity.
Qed.

Lemma search_news_negative_cap_witness :
  exists formatted,
    fst (search_news (mkConfig 15 "en" (-1)) Sample.parse
                     (Sample.always
                        (Sample.ok_body [("news", PyList (Sample.articles 3))]))
                     None None None None None None
                     (Sample.world (Some "key")))
    = Ret (json_dumps
             (PyDict
                [("status", PyStr "success");
                 ("total_results", PyInt 2);
                 ("articles", PyList formatted);
                 ("search_params",
                  PyDict [("keywords", PyNone);
                          ("language", PyNone);
                          ("country", PyNone);
                          ("category", PyNone);
                          ("start_date", PyNone);
                          ("end_date", PyNone)])])
             (Some 2%nat))
    /\ List.length formatted = 2%nat.
Proof.
  destruct (search_news_negative_cap
              (mkConfig 15 "en" (-1)) Sample.parse
              (Sample.always (Sample.ok_body [("news", PyList (Sample.articles 3))]))
              None None None None None None
              (Sample.world (Some "key")) "key" 200 ""
              [("status", PyStr "ok"); ("news", PyList (Sample.articles 3))]
              (Sample.articles 3))
    as (formatted & Hr & Hall).
  - left. reflexivity.
  - left. reflexivity.
  - reflexivity.
  - reflexivity.
  - reflexivity.
  - lia.
  - reflexivity.
  - reflexivity.
  - simpl. lia.
  - simpl.
    repeat (constructor;
            [eexists _, _, _; split; [reflexivity | split; reflexivity]|]).
    constructor.
  - exists formatted. split; [exact Hr|].
    apply Forall2_length in Hall. simpl in Hall. lia.
Defined.

(** ** The normaliser, once more *)

Lemma lstrip_fixed (s : string) : starts_with_space s = false -> lstrip s = s.
Proof. destruct s as [|c s]; simpl; [reflexivity | intros ->; reflexivity]. Qed.

Lemma rstrip_fixed (s : string) : ends_with_space s = false -> rstrip s = s.
Proof.
  induction s as [|c s IH]; [reflexivity|].
  destruct s as [|c2 s2].
  - simpl. intros ->. reflexivity.
  - intros H. change (ends_with_space (String c2 s2) = false) in H.
    change (rstrip (String c (String c2 s2)))
      with (match rstrip (String c2 s2) with
            | EmptyString => if py_isspace c then EmptyString else String c EmptyString
            | r => String c r
            end).
    rewrite (IH H). reflexivity.
Qed.

Lemma strip_idempotent (s : string) : strip (strip s) = strip s.
Proof.
  destruct (strip_trimmed s) as (_ & Hlead & Htrail).
  unfold strip at 1. rewrite (lstrip_fixed _ Hlead). apply rstrip_fixed, Htrail.
Qed.

Lemma strip_fixed (s : string) :
  starts_with_space s = false -> ends_with_space s = false -> strip s = s.
Proof.
  intros Hl Ht. unfold strip. rewrite (lstrip_fixed _ Hl). apply rstrip_fixed, Ht.
Qed.

(** X15. A normalised article is a fixed point of the normaliser:
    normalising the output of [format_news_article] returns it
    unchanged. *)
Theorem format_news_article_idempotent (article out : PyVal) :
  format_news_article article = Ret out ->
  format_news_article out = Ret out.
Proof.
  intros H. apply format_news_article_inv in H as (d & t & ds & -> & _ & _ & ->).
  unfold normalised, format_news_article.
  remember (dict_get d "image" PyNone) as image eqn:Himage.
  simpl. rewrite !strip_idempotent.
  destruct image as [| | | |s| |]; simpl; try reflexivity.
  destruct (String.eqb s "None") eqn:E; simpl; rewrite ?E; reflexivity.
Qed.

Lemma format_news_article_idempotent_witness :
  format_news_article
    (PyDict [("id", PyInt 3); ("title", PyStr "Markets rally");
             ("description", PyStr ""); ("url", PyStr "");
             ("author", PyStr "Unknown"); ("image", PyNone);
             ("language", PyStr ""); ("category", PyList []);
             ("published", PyStr ""); ("source", PyStr "Currents API")])
  = Ret (PyDict [("id", PyInt 3); ("title", PyStr "Markets rally");
                 ("description", PyStr ""); ("url", PyStr "");
                 ("author", PyStr "Unknown"); ("image", PyNone);
                 ("language", PyStr ""); ("category", PyList []);
                 ("published", PyStr ""); ("source", PyStr "Currents API")]).
Proof.
  apply (format_news_article_idempotent (Sample.article 3)). reflexivity.
Defined.

(** X16. The output of the normaliser has the ten keys id, title,
    description, url, author, image, language, category, published and
    source, in that order and no other; an id, url, author, language,
    category or published that the article has is passed on as it is,
    whatever its type, an image is passed on unless it is the string
    ["None"], and a source the article has is replaced. *)
Theorem format_news_article_shape (article out : PyVal) :
  format_news_article article = Ret out ->
  dict_keys out = article_keys
  /\ (forall k v,
         In k ["id"; "url"; "author"; "language"; "category"; "published"] ->
         field article k = Some v -> field out k = Some v)
  /\ (forall v, field article "image" = Some v -> v <> PyStr "None" ->
                field out "image" = Some v)
  /\ (field article "image" = None -> field out "image" = Some PyNone)
  /\ field out "source" = Some (PyStr "Currents API").
Proof.
  intros H. apply format_news_article_inv in H as (d & t & ds & -> & _ & _ & ->).
  split; [reflexivity|]. split; [|split; [|split]].
  - intros k v Hk Hv. simpl in Hv.
    simpl in Hk.
    destruct Hk as [<- | [<- | [<- | [<- | [<- | [<- | []]]]]]];
      simpl; unfold dict_get; rewrite Hv; reflexivity.
  - intros v Hv Hne. simpl in Hv. simpl. unfold dict_get. rewrite Hv.
    destruct (py_eq_str v "None") eqn:E; [|reflexivity].
    exfalso. apply Hne. destruct v; try discriminate E.
    simpl in E. apply String.eqb_eq in E. congruence.
  - intros Hn. simpl in Hn. simpl. unfold dict_get. rewrite Hn. reflexivity.
  - reflexivity.
Qed.

Lemma format_news_article_shape_witness :
  field (normalised [("category", PyStr "world"); ("source", PyStr "Reuters")] "" "")
        "category" = Some (PyStr "world")
  /\ field (normalised [("category", PyStr "world"); ("source", PyStr "Reuters")] "" "")
           "source" = Some (PyStr "Currents API").
Proof.
  destruct (format_news_article_shape
              (PyDict [("category", PyStr "world"); ("source", PyStr "Reuters")])
              (normalised [("category", PyStr "world"); ("source", PyStr "Reuters")]
                          "" "")
              eq_refl)
    as (_ & Hpass & _ & _ & Hsource).
  split; [|exact Hsource].
  apply Hpass; [simpl; tauto | reflexivity].
Defined.

(** ** The status check *)




(** X18. A status check that succeeds reports, for each of the three
    reference keys, whether its entry is valid at the moment the probe's
    answer has arrived, counts the articles of the probe, and leaves the
    cache as it was. *)
Theorem status_check_reports_cache
        (cfg : Config) (transport : nat -> Request -> Exchange)
        (w : World) (r : Json) :
  fst (check_api_status cfg transport w) = Ret r ->
  status_of r = Some (PyStr "success") ->
  let w' := snd (check_api_status cfg transport w) in
  _cache w' = _cache w
  /\ exists flags test,
      field (doc r) "cache_status" = Some flags
      /\ field flags "languages_cached" = Some (PyBool (is_cache_valid "languages" w'))
      /\ field flags "regions_cached" = Some (PyBool (is_cache_valid "regions" w'))
      /\ field flags "categories_cached"
         = Some (PyBool (is_cache_valid "categories" w'))
      /\ field (doc r) "test_result" = Some test
      /\ exists news n,
          fst (make_api_request cfg transport "latest-news"
                                (Some [("language", "en")]) w)
          = Ret (PyDict news)
          /\ py_len (dict_get news "news" (PyList [])) = Ret n
          /\ field test "articles_count" = Some (PyInt n).
Proof.
  unfold check_api_status, try_except, bind, lift, ret.
  destruct (negb (truthy_opt (get_api_key w))); simpl;
    [intros [= <-]; discriminate|].
  pose proof (make_api_request_cache cfg transport "latest-news"
                                     (Some [("language", "en")]) w) as Hc.
  destruct (make_api_request cfg transport "latest-news"
                             (Some [("language", "en")]) w)
    as [[response|e] w1]; simpl in Hc |- *;
    [|intros [= <-]; discriminate].
  destruct response as [| | | | | |d]; simpl; try (intros [= <-]; discriminate).
  destruct (py_eq_str (dict_get d "status" PyNone) "ok"); simpl;
    [|intros [= <-]; discriminate].
  destruct (py_len (dict_get d "news" (PyList []))) as [n|e] eqn:Hlen; simpl;
    [|intros [= <-]; discriminate].
  intros [= <-] _. split; [exact Hc|].
  eexists _, _. repeat split. exists d, n. repeat split. exact Hlen.
Qed.

Lemma status_check_reports_cache_witness :
  exists flags,
    field (PyDict [("cache_status",
                    PyDict [("languages_cached", PyBool true);
                            ("regions_cached", PyBool false);
                            ("categories_cached", PyBool false)])])
          "cache_status" = Some flags
    /\ field flags "languages_cached"
       = Some (PyBool (is_cache_valid
                         "languages"
                         (snd (check_api_status
                                 Sample.cfg (Sample.always (Sample.ok_body []))
                                 (Sample.after_first Sample.one_language))))).
Proof.
  destruct (status_check_reports_cache
              Sample.cfg (Sample.always (Sample.ok_body []))
              (Sample.after_first Sample.one_language)
              (json_dumps
                 (PyDict
                    [("status", PyStr "success");
                     ("message", PyStr "API connection successful");
                     ("configuration",
                      PyDict [("api_key_set", PyBool true);
                              ("api_key_masked", PyStr "***");
                              ("base_url", PyStr API_BASE_URL);
                              ("timeout", PyInt 15);
                              ("default_language", PyStr "en");
                              ("max_results", PyInt 20)]);
                     ("test_result",
                      PyDict [("endpoint_tested", PyStr "latest-news");
                              ("response_received", PyBool true);
                              ("articles_count", PyInt 0)]);
                     ("cache_status",
                      PyDict [("languages_cached", PyBool true);
                              ("regions_cached", PyBool false);
                              ("categories_cached", PyBool false)])])
                 (Some 2%nat))
              eq_refl eq_refl)
    as (_ & flags & test & Hflags & Hlang & _).
  exists flags. split; [exact Hflags | exact Hlang].
Defined.

(** ** The configuration resource and the requests *)

(** X19. The endpoints the configuration resource lists are the
    endpoints the operations call: every operation's request goes to one
    of the five listed URLs, and every listed URL is the one some
    operation calls. *)
Theorem config_endpoints_are_called (cfg : Config) :
  exists endpoints,
    field (doc (get_api_config cfg)) "endpoints" = Some endpoints
    /\ (forall op w,
           In (PyStr (req_url (request_in cfg op w))) (dict_values endpoints))
    /\ (forall v,
           In v (dict_values endpoints) ->
           exists op, forall w, v = PyStr (req_url (request_in cfg op w))).
Proof.
  eexists. split; [reflexivity|]. split.
  - intros op w. destruct op; simpl; tauto.
  - intros v Hv. simpl in Hv.
    destruct Hv as [<- | [<- | [<- | [<- | [<- | []]]]]].
    + exists (SearchNews None None None None None None). reflexivity.
    + exists (GetLatestNews None). reflexivity.
    + exists GetAvailableLanguages. reflexivity.
    + exists GetAvailableRegions. reflexivity.
    + exists GetAvailableCategories. reflexivity.
Qed.

(** ** Sessions *)

Section SessionFacts.

Variable cfg : Config.
Variable date_parser_parse : string -> Res unit.
Variable transport : nat -> Request -> Exchange.
Variable isoformat_now : Q -> string.

Abbreviation run_one := (run cfg date_parser_parse transport isoformat_now).
Abbreviation play_all := (play cfg date_parser_parse transport isoformat_now).

(** One call, field by field. *)
Lemma run_fields (op : Operation) (w : World) :
  let w' := snd (run_one op w) in
  CURRENTS_API_KEY w' = CURRENTS_API_KEY w
  /\ sent w' = ((if sends date_parser_parse op w
                 then [request_in cfg op w] else []) ++ sent w)%list
  /\ (forall c, http_client w = Some c -> http_client w' = Some c)
  /\ (forall k, reference_key op <> Some k -> _cache w' !! k = _cache w !! k)
  /\ ((forall n req, (0 <= took (transport n req))%Q) ->
      stamped_in_the_past w -> stamped_in_the_past w').
Proof.
  intros w'. subst w'.
  destruct (run_frame cfg date_parser_parse transport isoformat_now op w)
    as (Hno & Hyes).
  destruct (sends date_parser_parse op w).
  - specialize (Hyes eq_refl). cbv zeta in Hyes.
    set (req := request_in cfg op w) in *.
    set (x := transport (List.length (sent w)) req) in *.
    assert (Hpast : (forall n r, (0 <= took (transport n r))%Q) ->
                    stamped_in_the_past w ->
                    stamped_in_the_past (after_exchange cfg req x w)).
    { intros Htook Hw k e He. simpl in He |- *.
      specialize (Hw k e He). specialize (Htook (List.length (sent w)) req).
      fold x in Htook. lra. }
    destruct Hyes as [-> | (key & dataset & Hkey & ->)].
    + repeat split; try reflexivity.
      * intros c Hc. simpl. rewrite Hc. reflexivity.
      * exact Hpast.
    + repeat split; try reflexivity.
      * intros c Hc. simpl. rewrite Hc. reflexivity.
      * intros k Hk. simpl. apply lookup_insert_ne. congruence.
      * intros Htook Hw k e He. simpl in He.
        destruct (decide (key = k)) as [<- | Hne].
        -- rewrite lookup_insert_eq in He. injection He as <-. simpl.
           apply Qle_refl.
        -- rewrite lookup_insert_ne in He by exact Hne.
           apply (Hpast Htook Hw k e). exact He.
  - rewrite (Hno eq_refl). repeat split; auto.
Qed.

Lemma play_fields (events : list Event) (w : World) :
  let w' := play_all events w in
  CURRENTS_API_KEY w' = CURRENTS_API_KEY w
  /\ (exists new,
         sent w' = (new ++ sent w)%list
         /\ (List.length new <= calls events)%nat
         /\ Forall (fun req =>
                      exists k op,
                        CURRENTS_API_KEY w = Some k /\ k <> ""
                        /\ req_headers req = [("Authorization", "Bearer " ++ k)]
                        /\ req_url req
                           = API_BASE_URL ++ "/" ++ fst (request_of cfg op))
                   new)
  /\ (forall c, http_client w = Some c -> http_client w' = Some c)
  /\ (forall k, k <> "languages" -> k <> "regions" -> k <> "categories" ->
                _cache w' !! k = _cache w !! k)
  /\ ((forall n req, (0 <= took (transport n req))%Q) ->
      forward events -> stamped_in_the_past w -> stamped_in_the_past w').
Proof.
  revert w. induction events as [|[op|dt] events IH]; intros w; simpl.
  - repeat split; auto. exists []. repeat split; [simpl; lia | constructor].
  - destruct (run_fields op w) as (Hkey & Hsent & Hclient & Hcache & Hpast).
    destruct (IH (snd (run_one op w)))
      as (Hkey' & (new & Hsent' & Hlen & Hall) & Hclient' & Hcache' & Hpast').
    split; [congruence|]. split; [|split; [|split]].
    + exists (new ++ if sends date_parser_parse op w
                     then [request_in cfg op w] else [])%list.
      split; [rewrite Hsent', Hsent, app_assoc; reflexivity|].
      split.
      * rewrite length_app. destruct (sends date_parser_parse op w); simpl; lia.
      * apply Forall_app. split.
        -- rewrite Hkey in Hall. exact Hall.
        -- destruct (sends date_parser_parse op w) eqn:Hs; [|constructor].
           constructor; [|constructor].
           assert (Ht : truthy_opt (get_api_key w) = true).
           { unfold sends in Hs. apply andb_true_iff in Hs. apply Hs. }
           destruct (truthy_opt_key w Ht) as (k & Hk & Hk').
           exists k, op. split; [exact Hk|]. split.
           ++ apply truthy_str_nonempty. exact Hk'.
           ++ unfold request_in. rewrite Hk. split; reflexivity.
    + intros c Hc. apply Hclient', Hclient, Hc.
    + intros k H1 H2 H3. rewrite Hcache' by assumption.
      apply Hcache. destruct op; simpl; congruence.
    + intros Htook Hfwd Hw. apply Hpast'; auto.
  - destruct (IH (at_time (now w + dt)%Q w))
      as (Hkey' & (new & Hsent' & Hlen & Hall) & Hclient' & Hcache' & Hpast').
    split; [exact Hkey'|]. split; [|split; [|split]].
    + exists new. auto.
    + exact Hclient'.
    + exact Hcache'.
    + intros Htook (Hdt & Hfwd) Hw. apply Hpast'; auto.
      intros k e He. simpl in He |- *. specialize (Hw k e He). lra.
Qed.

End SessionFacts.

(** X20. Over any session of calls and waits, the requests sent are at
    most one per call, added in front of those sent before; each carries
    the configured credential as bearer token and goes to the endpoint of
    one of the operations; and a client that exists is kept. *)
Theorem session_requests
        (cfg : Config) (date_parser_parse : string -> Res unit)
        (transport : nat -> Request -> Exchange) (isoformat_now : Q -> string)
        (events : list Event) (w : World) :
  let w' := play cfg date_parser_parse transport isoformat_now events w in
  (exists new,
      sent w' = (new ++ sent w)%list
      /\ (List.length new <= calls events)%nat
      /\ Forall (fun req =>
                   exists k op,
                     CURRENTS_API_KEY w = Some k /\ k <> ""
                     /\ req_headers req = [("Authorization", "Bearer " ++ k)]
                     /\ req_url req = API_BASE_URL ++ "/" ++ fst (request_of cfg op))
                new)
  /\ (forall c, http_client w = Some c -> http_client w' = Some c).
Proof.
  destruct (play_fields cfg date_parser_parse transport isoformat_now events w)
    as (_ & Hsent & Hclient & _).
  split; assumption.
Qed.

(** X21. Over any session, the cache changes under the three keys
    ["languages"], ["regions"] and ["categories"] only: every other key
    reads at the end as it did at the start. *)
Theorem session_cache_keys
        (cfg : Config) (date_parser_parse : string -> Res unit)
        (transport : nat -> Request -> Exchange) (isoformat_now : Q -> string)
        (events : list Event) (w : World) (k : string) :
  k <> "languages" -> k <> "regions" -> k <> "categories" ->
  _cache (play cfg date_parser_parse transport isoformat_now events w) !! k
  = _cache w !! k.
Proof.
  apply (play_fields cfg date_parser_parse transport isoformat_now events w).
Qed.

Lemma session_cache_keys_witness :
  _cache (play Sample.cfg Sample.parse Sample.one_language Sample.isoformat_now
               [Call GetAvailableLanguages; Wait 5; Call CheckApiStatus]
               (Sample.world (Some "key"))) !! "search"
  = None.
Proof.
  rewrite (session_cache_keys
             Sample.cfg Sample.parse Sample.one_language Sample.isoformat_now
             [Call GetAvailableLanguages; Wait 5; Call CheckApiStatus]
             (Sample.world (Some "key")) "search");
    [reflexivity | discriminate ..].
Defined.

(** X22. When no exchange and no wait takes negative time, no cache
    entry is ever stamped later than the clock reads: if that holds at the
    start of a session it holds at its end, so the age [is_cache_valid]
    computes is never negative. *)
Theorem session_timestamps
        (cfg : Config) (date_parser_parse : string -> Res unit)
        (transport : nat -> Request -> Exchange) (isoformat_now : Q -> string)
        (events : list Event) (w : World) :
  (forall n req, (0 <= took (transport n req))%Q) ->
  forward events ->
  stamped_in_the_past w ->
  stamped_in_the_past (play cfg date_parser_parse transport isoformat_now events w).
Proof.
  apply (play_fields cfg date_parser_parse transport isoformat_now events w).
Qed.

Lemma session_timestamps_witness :
  stamped_in_the_past
    (play Sample.cfg Sample.parse Sample.one_language Sample.isoformat_now
          [Call GetAvailableLanguages; Wait 5; Call GetAvailableRegions]
          (Sample.world (Some "key"))).
Proof.
  apply (session_timestamps
           Sample.cfg Sample.parse Sample.one_language Sample.isoformat_now
           [Call GetAvailableLanguages; Wait 5; Call GetAvailableRegions]
           (Sample.world (Some "key"))).
  - intros n req. simpl. discriminate.
  - simpl. split; [discriminate | exact I].
  - intros k e He. simpl in He. rewrite lookup_empty in He. discriminate.
Defined.

Lemma session_requests_witness :
  sent (play Sample.cfg Sample.parse Sample.one_language Sample.isoformat_now
             [Call GetAvailableLanguages; Wait 5; Call GetAvailableLanguages;
              Call (GetLatestNews None)]
             (Sample.world (Some "key")))
  = [request_for "key" "latest-news" (Some [("language", "en")]);
     request_for "key" "available/languages" None].
Proof.
  destruct (session_requests
              Sample.cfg Sample.parse Sample.one_language Sample.isoformat_now
              [Call GetAvailableLanguages; Wait 5; Call GetAvailableLanguages;
               Call (GetLatestNews None)]
              (Sample.world (Some "key")))
    as ((new & Hsent & Hlen & _) & _).
  reflexivity.
Defined.

(** ** A body that is not an object *)

(** X23. When the request is sent and answered 2xx with JSON that is
    not an object (a list, a string, a number, [null]), every operation
    returns an error result whose message names the type that has no
    [get]. *)
Theorem non_object_body_reported
        (cfg : Config) (date_parser_parse : string -> Res unit)
        (transport : nat -> Request -> Exchange) (isoformat_now : Q -> string)
        (op : Operation) (w : World) (status_code : Z) (err : string)
        (body : PyVal) :
  sends date_parser_parse op w = true ->
  outcome (transport (List.length (sent w)) (request_in cfg op w))
  = Response status_code err (Ret body) ->
  200 <= status_code <= 299 ->
  type_name body <> "dict" ->
  exists r,
    fst (run cfg date_parser_parse transport isoformat_now op w) = Ret r
    /\ status_of r = Some (PyStr "error")
    /\ carries_message r ("'" ++ type_name body ++ "' object has no attribute 'get'").
Proof.
  intros Hs Hout Hcode Htype.
  destruct (run_cases cfg date_parser_parse transport isoformat_now op w)
    as [Hno | (k & Hk & Ht & Hsent & Hr)].
  - exfalso.
    destruct (run_fields cfg date_parser_parse transport isoformat_now op w)
      as (_ & Hsent & _).
    rewrite Hs in Hsent. rewrite Hno in Hsent. simpl in Hsent.
    exact (cons_neq_self _ _ Hsent).
  - cbv zeta in Hr. unfold request_in in Hout. rewrite Hk in Hout.
    simpl default in Hout.
    assert (Hkey : truthy_opt (get_api_key w) = true).
    { unfold truthy_opt. rewrite Hk. exact Ht. }
    assert (Hrec : received cfg
                     (outcome (transport (List.length (sent w))
                                (request_for k (fst (request_of cfg op))
                                             (snd (request_of cfg op)))))
                   = Ret body).
    { rewrite Hout. apply received_success, Hcode. }
    unfold sends in Hs. rewrite Hkey in Hs. simpl in Hs.
    destruct body as [| | | | | |d]; try (exfalso; apply Htype; reflexivity);
      clear Htype.
    all: destruct op; simpl in Hout, Hrec, Hs |- *;
      unfold search_news, get_latest_news, get_available_languages,
        get_available_regions, get_available_categories, reference_lookup,
        check_api_status, try_except, bind, lift, ret;
      rewrite ?Hkey; simpl;
      try (destruct (supplied_and_invalid date_parser_parse start_date)
             as [[|]|?]; try discriminate Hs;
           destruct (supplied_and_invalid date_parser_parse end_date)
             as [[|]|?]; try discriminate Hs; simpl);
      try (apply negb_true_iff in Hs; rewrite Hs; simpl);
      rewrite (make_api_request_sends cfg transport _ _ w k Hk Ht); simpl;
      rewrite Hrec; simpl;
      (eexists; split; [reflexivity|]; split; [reflexivity|]);
      first [exists ""; reflexivity
            | exists "API status check failed: "; reflexivity].
Qed.

Lemma non_object_body_reported_witness :
  exists r,
    fst (run Sample.cfg Sample.parse
             (Sample.always (Response 200 "" (Ret (PyList []))))
             Sample.isoformat_now (GetLatestNews None) (Sample.world (Some "key")))
    = Ret r
    /\ status_of r = Some (PyStr "error")
    /\ carries_message r "'list' object has no attribute 'get'".
Proof.
  apply (non_object_body_reported
           Sample.cfg Sample.parse
           (Sample.always (Response 200 "" (Ret (PyList []))))
           Sample.isoformat_now (GetLatestNews None) (Sample.world (Some "key"))
           200 "" (PyList [])).
  - reflexivity.
  - reflexivity.
  - lia.
  - discriminate.
Defined.
